(** * solar_calc: solar geometry kernel, efficiency profile generator and
      hourly production formula

    Shallow embedding of [solar_angle.py] and of [calc_hourly_production]
    from [__main__.py].

    Numbers.  Python floats are read as exact real numbers ([R]); loop
    counters and the hour/minute bookkeeping are [nat] and [Z].  [np.sin],
    [np.cos] are [sin], [cos]; [np.asin] and [np.acos] are the library's
    [asin] and [acos], which are the usual inverse functions on [-1, 1];
    [/] is the library's total division, so statements whose value depends
    on a denominator carry the hypothesis that it is not zero.

    Exceptions.  [raise ValueError(..)] and the domain error of
    [math.sqrt] are values of [result].

    Doubles.  The exact reading is adequate where a result is not decided
    by rounding, as in the generator, whose quotients stay away from the
    ends of [-1, 1].  [get_efficiency_coefficient] on arbitrary vectors is
    decided by rounding; module [Double] gives it on binary64 numbers. *)

From Stdlib Require Import String DecimalString Reals Lra Lia ZArith Bool Psatz List.
From Stdlib Require PrimFloat.
Import ListNotations.
Local Open Scope R_scope.

(** ** Exceptions *)

Inductive ValueError : Type :=
| Angle_out_of_bounds      (* solar_azimuth_angle, final else *)
| Out_of_upper_bounds      (* get_efficiency_coefficient, deg_angle > 90 *)
| Out_of_lower_bounds      (* get_efficiency_coefficient, deg_angle < 0 *)
| Math_domain_error.       (* math.sqrt of a negative number *)

Inductive result (A : Type) : Type :=
| Ok (a : A)
| Raise (e : ValueError).
Arguments Ok {A} a.
Arguments Raise {A} e.

Definition bind {A B : Type} (m : result A) (k : A -> result B) : result B :=
  match m with
  | Ok a => k a
  | Raise e => Raise e
  end.

Declare Scope result_scope.
Delimit Scope result_scope with result.
Notation "'let*' x ':=' m 'in' k" := (bind m (fun x => k))
  (at level 10, x name, m at level 100, k at level 200) : result_scope.
Local Open Scope result_scope.

(** A [for] loop over [l] that updates the loop state [s]; the first
    exception aborts it. *)
Fixpoint foldM {S A : Type} (f : S -> A -> result S) (l : list A) (s : S)
    : result S :=
  match l with
  | [] => Ok s
  | a :: l' => let* s' := f s a in foldM f l' s'
  end.

(** A [for] loop that appends one result per element of [l]. *)
Fixpoint mapM {A B : Type} (f : A -> result B) (l : list A) : result (list B) :=
  match l with
  | [] => Ok []
  | a :: l' =>
      let* b := f a in
      let* bs := mapM f l' in
      Ok (b :: bs)
  end.

(** ** Comparisons of floats as booleans *)

Definition Rlt_b (x y : R) : bool := if Rlt_dec x y then true else false.
Definition Rgt_b (x y : R) : bool := if Rgt_dec x y then true else false.
Definition Rge_b (x y : R) : bool := if Rge_dec x y then true else false.
Definition Req_b (x y : R) : bool := if Req_dec_T x y then true else false.

(** ** Solar geometry kernel *)

Module Kernel.

Definition rad (degrees : R) : R := degrees * PI / 180.

Definition deg (radians : R) : R := radians * 180 / PI.

Definition day_divisor (is_leap_year : bool) : R :=
  if is_leap_year then 366 else 365.

Definition declination_angle (day : R) (is_leap_year : bool) : R :=
  let day_divisor := day_divisor is_leap_year in
  asin (sin (rad (-23.44)) * cos (rad (
          360 / day_divisor * (day + 10)
          + 360 / PI * 0.0167 * sin (rad (360 / day_divisor * (day - 2)))))).

(** The equation-of-time term of [c_lst]. *)
Definition eot (time day : R) (is_leap_year : bool) : R :=
  let day_divisor := day_divisor is_leap_year in
  let fractional_year :=
    2 * PI / day_divisor * (day - 1 + (time / 60 - 12) / 24) in
  229.18 * (0.000075
            + 0.001868 * cos fractional_year
            - 0.032077 * sin fractional_year
            - 0.014615 * cos (2 * fractional_year)
            - 0.040849 * sin (2 * fractional_year)).

Definition c_lst (time day longitude tz_offset : R) (is_leap_year : bool) : R :=
  time + eot time day is_leap_year + 4 * (longitude - 15 * tz_offset).

Definition solar_hour_angle (time day longitude tz_offset : R)
    (is_leap_year : bool) : R :=
  let corrected_local_solar_time :=
    c_lst time day longitude tz_offset is_leap_year in
  rad (corrected_local_solar_time / 4 - 180).

Definition solar_elevation_angle (latitude d_angle sh_angle : R) : R :=
  asin (sin (rad latitude) * sin d_angle
        + cos (rad latitude) * cos d_angle * cos sh_angle).

Definition solar_azimuth_angle (latitude d_angle sh_angle e_angle : R)
    : result R :=
  let a_angle :=
    acos ((sin d_angle * cos (rad latitude)
           - cos d_angle * sin (rad latitude) * cos sh_angle) / cos e_angle) in
  let a_angle := if Rgt_b sh_angle 0 then rad 360 - a_angle else a_angle in
  let deg_angle := deg sh_angle in
  if Req_b deg_angle 0 then Ok (rad (-90))
  else if Req_b deg_angle (-90) then Ok 0
  else if Req_b deg_angle 90 then Ok (rad 180)
  else if Rlt_b deg_angle (-90)
          || (Rgt_b deg_angle 0 && Rlt_b deg_angle 90)
          || (Rgt_b deg_angle (-90) && Rlt_b deg_angle 0)
       then Ok (- sh_angle - rad 90)
  else if Rgt_b deg_angle 90 then Ok (rad 270 - sh_angle)
  else Raise Angle_out_of_bounds.

Record SolarAngles : Type := mkAngles { e_angle : R; a_angle : R }.

Definition solar_data (latitude longitude day time tz_offset : R)
    (is_leap_year : bool) : result SolarAngles :=
  let d_angle := declination_angle day is_leap_year in
  let sh_angle := solar_hour_angle time day longitude tz_offset is_leap_year in
  let e_angle := solar_elevation_angle latitude d_angle sh_angle in
  let* a_angle := solar_azimuth_angle latitude d_angle sh_angle e_angle in
  Ok (mkAngles e_angle a_angle).

(** [math.sqrt]: a domain error on a negative argument. *)
Definition math_sqrt (x : R) : result R :=
  if Rlt_b x 0 then Raise Math_domain_error else Ok (sqrt x).

Definition vec3 : Type := (R * R * R)%type.

Definition get_solar_vector (e_angle a_angle : R) : result vec3 :=
  let a := cos e_angle in
  let b := sin e_angle in
  let c := cos a_angle in
  let d := cos a_angle in
  let* sx := math_sqrt ((b^2 * c^2) / (d^2 + b^2 * c^2)) in
  let x := sx in
  let* sy := math_sqrt (1 - (b^2 * c^2) / (d^2 + b^2 * c^2)) in
  let y := - a * sy in
  let* sz := math_sqrt (1 - (b^2 * c^2) / (d^2 + b^2 * c^2)) in
  let z := b * sz in
  Ok (x, y, z).

(** The argument handed to [np.acos] in [get_efficiency_coefficient]. *)
Definition cos_between (panel_normal solar_vector : vec3) : result R :=
  let '(xa, ya, za) := panel_normal in
  let '(xb, yb, zb) := solar_vector in
  let* na := math_sqrt (xa^2 + ya^2 + za^2) in
  let* nb := math_sqrt (xb^2 + yb^2 + zb^2) in
  Ok ((xa * xb + ya * yb + za * zb) / (na * nb)).

Definition get_efficiency_coefficient (panel_normal solar_vector : vec3)
    : result R :=
  let* q := cos_between panel_normal solar_vector in
  let angle := acos q in
  let deg_angle := deg angle in
  if Rgt_b deg_angle 90 then Raise Out_of_upper_bounds
  else if Rlt_b deg_angle 0 then Raise Out_of_lower_bounds
  else Ok ((90 - Rabs deg_angle) / 100).

End Kernel.

(** ** Efficiency profile generator *)

Module Generator.
Import Kernel.

Local Open Scope string_scope.

(** The [if]/[elif] chain of the regular year. *)
Definition month_regular (day : nat) : string * Z :=
  if (0 <=? day)%nat && (day <=? 30)%nat then ("01", -1)%Z
  else if (31 <=? day)%nat && (day <=? 58)%nat then ("02", 30)%Z
  else if (59 <=? day)%nat && (day <=? 89)%nat then ("03", 58)%Z
  else if (90 <=? day)%nat && (day <=? 119)%nat then ("04", 89)%Z
  else if (120 <=? day)%nat && (day <=? 150)%nat then ("05", 119)%Z
  else if (151 <=? day)%nat && (day <=? 180)%nat then ("06", 150)%Z
  else if (181 <=? day)%nat && (day <=? 211)%nat then ("07", 180)%Z
  else if (212 <=? day)%nat && (day <=? 242)%nat then ("08", 211)%Z
  else if (243 <=? day)%nat && (day <=? 272)%nat then ("09", 242)%Z
  else if (273 <=? day)%nat && (day <=? 303)%nat then ("10", 272)%Z
  else if (304 <=? day)%nat && (day <=? 333)%nat then ("11", 303)%Z
  else if (334 <=? day)%nat && (day <=? 364)%nat then ("12", 333)%Z
  else ("", 0%Z).  (* no branch assigns; not met for day in range(0, 365) *)

(** The [if]/[elif] chain of the leap year. *)
Definition month_leap (day : nat) : string * Z :=
  if (0 <=? day)%nat && (day <=? 30)%nat then ("01", -1)%Z
  else if (31 <=? day)%nat && (day <=? 59)%nat then ("02", 30)%Z
  else if (60 <=? day)%nat && (day <=? 90)%nat then ("03", 59)%Z
  else if (91 <=? day)%nat && (day <=? 120)%nat then ("04", 90)%Z
  else if (121 <=? day)%nat && (day <=? 151)%nat then ("05", 120)%Z
  else if (152 <=? day)%nat && (day <=? 181)%nat then ("06", 151)%Z
  else if (182 <=? day)%nat && (day <=? 212)%nat then ("07", 181)%Z
  else if (213 <=? day)%nat && (day <=? 243)%nat then ("08", 212)%Z
  else if (244 <=? day)%nat && (day <=? 273)%nat then ("09", 243)%Z
  else if (274 <=? day)%nat && (day <=? 304)%nat then ("10", 273)%Z
  else if (305 <=? day)%nat && (day <=? 334)%nat then ("11", 304)%Z
  else if (335 <=? day)%nat && (day <=? 365)%nat then ("12", 334)%Z
  else ("", 0%Z).  (* no branch assigns; not met for day in range(0, 366) *)

Local Close Scope string_scope.

(** [hour_data] while the minutes are scanned.  [start_time] and
    [end_time] stand for the keys ['start_time'] and ['end-time'], whose
    values are the two numbers formatted as [HH:MM]. *)
Record HourData (A : Type) : Type := mkHourData {
  hd_month : string;
  hd_day : Z;
  hd_hour : nat;
  angle_data : list A;
  start_time : option (Z * Z);
  end_time : option (Z * Z)
}.
Arguments mkHourData {A}.
Arguments hd_month {A}.
Arguments hd_day {A}.
Arguments hd_hour {A}.
Arguments angle_data {A}.
Arguments start_time {A}.
Arguments end_time {A}.

(** The per-day variables of the scan. *)
Record DayVars : Type := mkDayVars {
  has_started : bool;
  day_start_hour : Z;
  day_start_min : Z;
  day_end_hour : Z;
  day_end_min : Z
}.

Definition day_vars_init : DayVars := mkDayVars false 0 0 0 0.

(** [hour_data] after the efficiency pass: ['angle_data'] is deleted and
    ['efficiency_data'] added. *)
Record HourRecord : Type := mkHourRecord {
  month : string;
  day : Z;
  hour : nat;
  hr_start_time : option (Z * Z);
  hr_end_time : option (Z * Z);
  efficiency_data : list R
}.

(** *** The scan of one day

    The scan is written over the value [solar_data_at time] that
    [solar_data] returns for the minute [time] of the day and over the
    test [is_valid] of a sample, so that it can be run on a table of
    samples. *)
Section Scan.

Variable A : Type.
Variable solar_data_at : nat -> result A.
Variable is_valid : A -> bool.

(** Body of [for min in range(0, 60)]. *)
Definition minute_step (hour : nat) (s : DayVars * HourData A) (min : nat)
    : result (DayVars * HourData A) :=
  let '(v, hour_data) := s in
  let* data := solar_data_at (hour * 60 + min) in
  if is_valid data then
    let hour_data :=
      mkHourData (hd_month hour_data) (hd_day hour_data) (hd_hour hour_data)
        (angle_data hour_data ++ [data])
        (start_time hour_data) (end_time hour_data) in
    if negb (has_started v) then
      Ok (mkDayVars (has_started v) (Z.of_nat hour) (Z.of_nat min)
            (day_end_hour v) (day_end_min v),
          mkHourData (hd_month hour_data) (hd_day hour_data)
            (hd_hour hour_data) (angle_data hour_data)
            (Some (Z.of_nat hour, Z.of_nat min)) (end_time hour_data))
    else Ok (v, hour_data)
  else if has_started v then
    let '(end_hour, end_min) :=
      if (min =? 0)%nat then ((Z.of_nat hour - 1)%Z, 59%Z)
      else (Z.of_nat hour, Z.of_nat min) in
    Ok (mkDayVars (has_started v) (day_start_hour v) (day_start_min v)
          end_hour end_min,
        mkHourData (hd_month hour_data) (hd_day hour_data)
          (hd_hour hour_data) (angle_data hour_data)
          (start_time hour_data) (Some (end_hour, end_min)))
  else Ok (v, hour_data).

(** Body of [for hour in range(5, 22)]. *)
Definition hour_step (month : string) (day : Z)
    (s : DayVars * list (HourData A)) (hour : nat)
    : result (DayVars * list (HourData A)) :=
  let '(v, day_data) := s in
  let hour_data := mkHourData month day hour [] None None in
  let* s' := foldM (minute_step hour) (seq 0 60) (v, hour_data) in
  let '(v, hour_data) := s' in
  Ok (v, day_data ++ [hour_data]).

Definition scan_day (month : string) (day : Z)
    : result (DayVars * list (HourData A)) :=
  foldM (hour_step month day) (seq 5 17) (day_vars_init, []).

End Scan.

Arguments minute_step {A}.
Arguments hour_step {A}.
Arguments scan_day {A}.

(** The [day_min]/[day_hr] arithmetic after the scan; returns
    [(day_hr, day_min)]. *)
Definition daylight (v : DayVars) : Z * Z :=
  let day_min := 0%Z in
  let day_hr := 0%Z in
  let '(day_min, day_hr) :=
    if (day_start_min v >? 0)%Z
    then ((60 - day_start_min v)%Z, (11 - day_start_hour v)%Z)
    else (day_min, (12 - day_start_hour v)%Z) in
  let day_min := (day_min + day_end_min v)%Z in
  let day_hr := (day_hr + day_end_hour v)%Z in
  if (day_min >? 60)%Z then ((day_hr + 1)%Z, (day_min - 60)%Z)
  else (day_hr, day_min).

Definition day_hr (v : DayVars) : Z := fst (daylight v).

(** The winter/summer switch. *)
Definition toggle (is_winter_angle : bool) (day_hr : Z) : bool :=
  if is_winter_angle then
    if (day_hr =? 12)%Z then false else is_winter_angle
  else
    if (day_hr =? 12)%Z then true else is_winter_angle.

(** The test that admits a minute. *)
Definition is_valid_angles (data : SolarAngles) : bool :=
  Rge_b (deg (e_angle data)) 0
  && Rlt_b (deg (a_angle data)) 0
  && Rgt_b (deg (a_angle data)) (-180).

(** *** One year variant

    The source writes the loop twice, once per year variant; the two
    copies differ in the number of days and in the month table only (both
    call [solar_data] without [is_leap_year], that is with [False]).  The
    two panel normals are local constants of [fetch_solar_data]; the loop
    is written over them. *)
Section Year.

Variables lat long : R.
Variables winter_panel_normal summer_panel_normal : vec3.
Variable month_table : nat -> string * Z.

Definition solar_data_of_day (day : nat) (time : nat) : result SolarAngles :=
  solar_data lat long (INR day) (INR time) (-5) false.

(** Body of [for angle_data in hour_data['angle_data']]. *)
Definition coefficient_of (is_winter_angle : bool) (angle_data : SolarAngles)
    : result R :=
  let* solar_vector :=
    get_solar_vector (e_angle angle_data) (a_angle angle_data) in
  if is_winter_angle
  then get_efficiency_coefficient winter_panel_normal solar_vector
  else get_efficiency_coefficient summer_panel_normal solar_vector.

(** Body of [for hour_data in day_data]. *)
Definition efficiency_pass (is_winter_angle : bool)
    (hour_data : HourData SolarAngles) : result HourRecord :=
  let* efficiency_coefficients :=
    mapM (coefficient_of is_winter_angle) (angle_data hour_data) in
  Ok (mkHourRecord (hd_month hour_data) (hd_day hour_data)
        (hd_hour hour_data) (start_time hour_data) (end_time hour_data)
        efficiency_coefficients).

(** Body of [for day in range(0, days)]; the loop state is
    [(is_winter_angle, data)]. *)
Definition day_step (s : bool * list HourRecord) (day : nat)
    : result (bool * list HourRecord) :=
  let '(is_winter_angle, data) := s in
  let '(month, day_subtractor) := month_table day in
  let* scanned :=
    scan_day (solar_data_of_day day) is_valid_angles
      month (Z.of_nat day - day_subtractor)%Z in
  let '(v, day_data) := scanned in
  let is_winter_angle := toggle is_winter_angle (day_hr v) in
  let* records := mapM (efficiency_pass is_winter_angle) day_data in
  Ok (is_winter_angle, data ++ records).

(** The loop state after the first [n] days. *)
Definition year_state (n : nat) : result (bool * list HourRecord) :=
  foldM day_step (seq 0 n) (true, []).

Definition year_data (days : nat) : result (list HourRecord) :=
  let* s := year_state days in Ok (snd s).

End Year.

Definition winter_panel_normal : vec3 := (0, - cos (rad 45), sin (rad 45)).
Definition summer_panel_normal : vec3 := (0, - cos (rad 45), sin (rad 45)).

Definition fetch_solar_data (lat long : R)
    : result (list HourRecord * list HourRecord) :=
  let* regular_data :=
    year_data lat long winter_panel_normal summer_panel_normal
      month_regular 365 in
  let* leap_year_data :=
    year_data lat long winter_panel_normal summer_panel_normal
      month_leap 366 in
  Ok (regular_data, leap_year_data).

End Generator.

(** ** Hourly production ([__main__.py]) *)

Module Aggregator.

(** [round(x, 3)]: the nearest multiple of [1/1000], ties to the even
    one. *)
Definition round_half_even (y : R) : Z :=
  let n := Zfloor y in
  let frac := y - IZR n in
  if Rlt_b frac (1 / 2) then n
  else if Rgt_b frac (1 / 2) then (n + 1)%Z
  else if Z.even n then n else (n + 1)%Z.

Definition round3 (x : R) : R := IZR (round_half_even (x * 1000)) / 1000.

(** The [temp_drop] of a row. *)
Definition temp_drop_of (temp : R) : R :=
  let temp_c := (temp - 32) / 1.8 in
  let temp_drop := 1 in
  if Rgt_b temp_c 25 then
    let temp_diff_c := temp_c - 25 in
    1 - temp_diff_c * 0.03
  else temp_drop.

(** [hourly_production] when the loop over [row[4]] ends, before the
    division by 60. *)
Definition accumulated_production (temp cloud_cover : R)
    (efficiency_data : list R) : R :=
  let temp_drop := temp_drop_of temp in
  fold_left
    (fun hourly_production min_coefficient =>
       let coefficient :=
         min_coefficient * temp_drop * (1 - cloud_cover / 100) in
       let produced := round3 (610 * 90 * coefficient / 1000) in
       hourly_production + produced)
    efficiency_data 0.

(** [calc_hourly_production(row)] with [row[2] = temp],
    [row[3] = cloud_cover] and [row[4] = efficiency_data]. *)
Definition calc_hourly_production (temp cloud_cover : R)
    (efficiency_data : list R) : R :=
  accumulated_production temp cloud_cover efficiency_data / 60.

(** The formula as the specification words it. *)
Definition temp_drop_spec (T : R) : R :=
  if Rle_dec ((T - 32) / 1.8) 25 then 1
  else 1 - 0.03 * ((T - 32) / 1.8 - 25).

Definition produced_spec (T C e : R) : R :=
  round3 (610 * 90 * e * temp_drop_spec T * (1 - C / 100) / 1000).

Definition hourly_production_spec (T C : R) (efficiency_data : list R) : R :=
  fold_right Rplus 0 (map (produced_spec T C) efficiency_data) / 60.

End Aggregator.

(** ** The rows of [hourly_data] ([__main__.py]) *)

Module Rows.
Import Generator.

Local Open Scope string_scope.

(** [str(n)] of a natural number. *)
Definition str_nat (n : nat) : string := NilZero.string_of_uint (Nat.to_uint n).

(** The field ['{:02d}'] of [str.format]: at least two characters, the
    sign included, padded with zeros. *)
Definition format_02d (z : Z) : string :=
  if (z <? 0)%Z then "-" ++ str_nat (Z.to_nat (- z))
  else
    let digits := str_nat (Z.to_nat z) in
    if (String.length digits <? 2)%nat then "0" ++ digits else digits.

(** ['{}-{}-{:02d} {:02d}:00:00'.format(year, month, day, hour)]. *)
Definition format_date (year : nat) (month : string) (day : Z) (hour : nat)
    : string :=
  str_nat year ++ "-" ++ month ++ "-" ++ format_02d day ++ " "
  ++ format_02d (Z.of_nat hour) ++ ":00:00".

(** The two lists [hourly_data['date']] and
    [hourly_data['efficiency_data']], which grow together, as one list of
    pairs. *)
Definition hourly_rows (reg leap : list HourRecord)
    : list (string * list R) :=
  flat_map
    (fun year =>
       map (fun data =>
              (format_date year (month data) (day data) (hour data),
               efficiency_data data))
           (if (year mod 4 =? 0)%nat then leap else reg))
    (seq 2010 14).

End Rows.

(** ** [get_efficiency_coefficient] on doubles

    The function of [solar_angle.py] on Python floats, with the arithmetic
    of binary64: [+], [*], [/] and [math.sqrt] are correctly rounded.
    [x**2] is read as the rounded square [x * x]; it raises
    [OverflowError] when a finite [x] overflows, and an underflow gives 0.
    [/] raises [ZeroDivisionError] on a zero divisor.  [np.acos] returns
    nan outside [-1, 1]; inside it is the [acos] of the C library, which
    is an argument of the model.  A comparison with nan is false. *)

Module Double.
Import PrimFloat.
Local Open Scope float_scope.

Inductive exn : Type :=
| Value_error (e : ValueError)
| OverflowError
| ZeroDivisionError.

Inductive outcome (A : Type) : Type :=
| Done (a : A)
| Raised (e : exn).
Arguments Done {A} a.
Arguments Raised {A} e.

Definition and_then {A B : Type} (m : outcome A) (k : A -> outcome B)
    : outcome B :=
  match m with
  | Done a => k a
  | Raised e => Raised e
  end.

(** [math.pi]. *)
Definition pi : float := 0x1.921fb54442d18p+1.

Definition deg (radians : float) : float := radians * 180 / pi.

Definition py_square (x : float) : outcome float :=
  let y := x * x in
  if is_infinity y && is_finite x then Raised OverflowError else Done y.

Definition math_sqrt (x : float) : outcome float :=
  if x <? 0 then Raised (Value_error Math_domain_error) else Done (sqrt x).

Definition py_div (x y : float) : outcome float :=
  if y =? 0 then Raised ZeroDivisionError else Done (x / y).

Definition np_acos (libm_acos : float -> float) (x : float) : float :=
  if (x <? -1) || (1 <? x) || is_nan x then nan else libm_acos x.

Definition vec3 : Type := (float * float * float)%type.

(** [sqrt(x**2 + y**2 + z**2)]. *)
Definition norm (v : vec3) : outcome float :=
  let '(x, y, z) := v in
  and_then (py_square x) (fun x2 =>
  and_then (py_square y) (fun y2 =>
  and_then (py_square z) (fun z2 =>
  math_sqrt (x2 + y2 + z2)))).

(** The argument handed to [np.acos]. *)
Definition cos_between (panel_normal solar_vector : vec3) : outcome float :=
  let '(xa, ya, za) := panel_normal in
  let '(xb, yb, zb) := solar_vector in
  let dot := xa * xb + ya * yb + za * zb in
  and_then (norm panel_normal) (fun na =>
  and_then (norm solar_vector) (fun nb =>
  py_div dot (na * nb))).

Definition get_efficiency_coefficient (libm_acos : float -> float)
    (panel_normal solar_vector : vec3) : outcome float :=
  and_then (cos_between panel_normal solar_vector) (fun q =>
  let angle := np_acos libm_acos q in
  let deg_angle := deg angle in
  if 90 <? deg_angle then Raised (Value_error Out_of_upper_bounds)
  else if deg_angle <? 0 then Raised (Value_error Out_of_lower_bounds)
  else Done ((90 - abs deg_angle) / 100)).

(** Three vectors and the double next above 1. *)
Definition ones : vec3 := (1, 1, 1).
Definition unit_x : vec3 := (1, 0, 0).
Definition tiny_x : vec3 := (0x1.87e92154ef7acp-665, 0, 0).  (* 1e-200 *)
Definition above_one : float := 0x1.0000000000001p+0.

End Double.

Import Kernel Generator Aggregator Rows.

(** ** Auxiliary definitions of the properties *)

(** The quotient under the three square roots of [get_solar_vector]. *)
Definition vector_ratio (e_angle a_angle : R) : R :=
  ((sin e_angle)^2 * (cos a_angle)^2)
  / ((cos a_angle)^2 + (sin e_angle)^2 * (cos a_angle)^2).

(** What the scan of a day finds when [solar_data] returns [sample time]
    at every minute. *)
Section ScanValue.

Variable A : Type.
Variable sample : nat -> A.
Variable is_valid : A -> bool.

(** The minutes of [mins] that are admitted in the hour [hour]. *)
Definition valid_among (hour : nat) (mins : list nat) : list nat :=
  filter (fun min => is_valid (sample (hour * 60 + min))) mins.

Definition valid_minutes (hour : nat) : list nat :=
  valid_among hour (seq 0 60).

Definition stamp (hour min : nat) : Z * Z := (Z.of_nat hour, Z.of_nat min).

(** The admitted minutes of the hours [hours] as [(hour, minute)], in
    the order of the scan: the first valid minute of the day is the head
    of [valid_stamps (seq 5 17)] and the last valid minute is its last
    element. *)
Definition valid_stamps (hours : list nat) : list (Z * Z) :=
  flat_map (fun hour => map (stamp hour) (valid_minutes hour)) hours.

Definition scanned_hour (month : string) (day : Z) (hour : nat) : HourData A :=
  mkHourData month day hour
    (map (fun min => sample (hour * 60 + min)) (valid_minutes hour))
    (last (map (fun min => Some (stamp hour min)) (valid_minutes hour)) None)
    None.

End ScanValue.

Arguments valid_among {A}.
Arguments valid_minutes {A}.
Arguments valid_stamps {A}.
Arguments scanned_hour {A}.

(** The sample of a minute: [solar_data] never raises. *)
Definition angles_at (lat long : R) (day time : nat) : SolarAngles :=
  match solar_data_of_day lat long day time with
  | Ok data => data
  | Raise _ => mkAngles 0 0
  end.

(** The efficiency pass of one hour against a given panel normal. *)
Definition efficiency_against (panel_normal : vec3)
    (hour_data : HourData SolarAngles) : result HourRecord :=
  let* efficiency_coefficients :=
    mapM (fun angle_data =>
            let* solar_vector :=
              get_solar_vector (e_angle angle_data) (a_angle angle_data) in
            get_efficiency_coefficient panel_normal solar_vector)
         (angle_data hour_data) in
  Ok (mkHourRecord (hd_month hour_data) (hd_day hour_data)
        (hd_hour hour_data) (start_time hour_data) (end_time hour_data)
        efficiency_coefficients).

(** The first and the last valid minute of a day, as the specification
    words them; [(0, 0)] when the day has no valid minute. *)
Definition first_valid_minute {A : Type} (sample : nat -> A)
    (is_valid : A -> bool) : Z * Z :=
  hd (0%Z, 0%Z) (valid_stamps sample is_valid (seq 5 17)).

Definition last_valid_minute {A : Type} (sample : nat -> A)
    (is_valid : A -> bool) : Z * Z :=
  last (valid_stamps sample is_valid (seq 5 17)) (0%Z, 0%Z).

(** The minute of the day of an [(hour, minute)] pair. *)
Definition minute_of_day (st : Z * Z) : Z := (fst st * 60 + snd st)%Z.

(** Every coefficient of a record is in [0, 0.90]. *)
Definition in_range (r : HourRecord) : Prop :=
  Forall (fun c => 0 <= c <= 0.90) (efficiency_data r).

(** The elevation of a sample is in [0, PI/2]. *)
Definition elevation_up (data : SolarAngles) : Prop :=
  0 <= e_angle data <= PI / 2.

(** A table of samples for runs of the scan: the sun is up from 07:20 to
    16:40. *)
Definition up_0720_1640 (time : nat) : bool :=
  (440 <=? time)%nat && (time <=? 1000)%nat.

Definition table_0720_1640 (time : nat) : result bool :=
  Ok (up_0720_1640 time).

(** The per-day variables at the end of a scan. *)
Definition day_vars_of {A : Type} (scanned : result (DayVars * list (HourData A)))
    : result DayVars :=
  let* s := scanned in Ok (fst s).

(** The date of a day of the year: the ['month'] and ['day'] of its
    records. *)
Definition day_label (month_table : nat -> string * Z) (day : nat)
    : string * Z :=
  (fst (month_table day), (Z.of_nat day - snd (month_table day))%Z).

(** The months of a year with their lengths, and the dates they span. *)
Definition month_lengths (february : nat) : list (string * nat) :=
  [("01", 31); ("02", february); ("03", 31); ("04", 30); ("05", 31);
   ("06", 30); ("07", 31); ("08", 31); ("09", 30); ("10", 31); ("11", 30);
   ("12", 31)]%string%nat.

Definition calendar (months : list (string * nat)) : list (string * Z) :=
  flat_map (fun m => map (fun d => (fst m, Z.of_nat d)) (seq 1 (snd m)))
           months.

(** The key of a record, and a record without its date. *)
Definition record_key (r : HourRecord) : string * Z * nat :=
  (month r, day r, hour r).

Definition unlabelled (r : HourRecord)
    : nat * option (Z * Z) * option (Z * Z) * list R :=
  (hour r, hr_start_time r, hr_end_time r, efficiency_data r).

(** A key whose month has two characters and whose day and hour have
    at most two digits. *)
Definition printable_key (k : string * Z * nat) : Prop :=
  String.length (fst (fst k)) = 2%nat
  /\ (exists n, (n < 100)%nat /\ snd (fst k) = Z.of_nat n)
  /\ (snd k < 100)%nat.

(** The date of a row. *)
Definition date_of_key (year : nat) (k : string * Z * nat) : string :=
  format_date year (fst (fst k)) (snd (fst k)) (snd k).

(** * Properties *)

(** ** Comparisons *)

Lemma Rlt_b_true x y : Rlt_b x y = true <-> x < y.
Proof. unfold Rlt_b; destruct (Rlt_dec x y); split; intros; (assumption || discriminate || reflexivity || contradiction). Qed.

Lemma Rgt_b_true x y : Rgt_b x y = true <-> x > y.
Proof. unfold Rgt_b; destruct (Rgt_dec x y); split; intros; (assumption || discriminate || reflexivity || contradiction). Qed.

Lemma Rge_b_true x y : Rge_b x y = true <-> x >= y.
Proof. unfold Rge_b; destruct (Rge_dec x y); split; intros; (assumption || discriminate || reflexivity || contradiction). Qed.

Lemma Req_b_true x y : Req_b x y = true <-> x = y.
Proof. unfold Req_b; destruct (Req_dec_T x y); split; intros; (assumption || discriminate || reflexivity || contradiction). Qed.

Lemma Rlt_b_false x y : Rlt_b x y = false <-> ~ x < y.
Proof. rewrite <- Rlt_b_true. destruct (Rlt_b x y); split; intros; (discriminate || congruence || tauto). Qed.

Lemma Rgt_b_false x y : Rgt_b x y = false <-> ~ x > y.
Proof. rewrite <- Rgt_b_true. destruct (Rgt_b x y); split; intros; (discriminate || congruence || tauto). Qed.

Lemma Rge_b_false x y : Rge_b x y = false <-> ~ x >= y.
Proof. rewrite <- Rge_b_true. destruct (Rge_b x y); split; intros; (discriminate || congruence || tauto). Qed.

Lemma Req_b_false x y : Req_b x y = false <-> x <> y.
Proof. rewrite <- Req_b_true. destruct (Req_b x y); split; intros; (discriminate || congruence || tauto). Qed.

(** Decides every float comparison of the goal and hands the facts to
    the arithmetic. *)
Ltac cmp :=
  repeat match goal with
  | |- context [Rlt_b ?x ?y] =>
      let H := fresh "C" in
      destruct (Rlt_b x y) eqn:H;
      [apply Rlt_b_true in H | apply Rlt_b_false in H]
  | |- context [Rgt_b ?x ?y] =>
      let H := fresh "C" in
      destruct (Rgt_b x y) eqn:H;
      [apply Rgt_b_true in H | apply Rgt_b_false in H]
  | |- context [Rge_b ?x ?y] =>
      let H := fresh "C" in
      destruct (Rge_b x y) eqn:H;
      [apply Rge_b_true in H | apply Rge_b_false in H]
  | |- context [Req_b ?x ?y] =>
      let H := fresh "C" in
      destruct (Req_b x y) eqn:H;
      [apply Req_b_true in H | apply Req_b_false in H]
  end.

(** ** Degrees and radians *)

Lemma deg_rad x : deg (rad x) = x.
Proof. unfold deg, rad. field. apply PI_neq0. Qed.

Lemma rad_deg x : rad (deg x) = x.
Proof. unfold deg, rad. field. apply PI_neq0. Qed.

Lemma deg_lt x y : x < y <-> deg x < deg y.
Proof.
  unfold deg. pose proof PI_RGT_0 as HPI.
  assert (H : 0 < 180 / PI) by (apply Rdiv_lt_0_compat; lra).
  replace (x * 180 / PI) with (x * (180 / PI)) by (field; lra).
  replace (y * 180 / PI) with (y * (180 / PI)) by (field; lra).
  split; intros; nra.
Qed.

Lemma deg_le x y : x <= y <-> deg x <= deg y.
Proof.
  unfold deg. pose proof PI_RGT_0 as HPI.
  assert (H : 0 < 180 / PI) by (apply Rdiv_lt_0_compat; lra).
  replace (x * 180 / PI) with (x * (180 / PI)) by (field; lra).
  replace (y * 180 / PI) with (y * (180 / PI)) by (field; lra).
  split; intros; nra.
Qed.

Lemma deg_plus x y : deg (x + y) = deg x + deg y.
Proof. unfold deg. field. apply PI_neq0. Qed.

Lemma deg_opp x : deg (- x) = - deg x.
Proof. unfold deg. field. apply PI_neq0. Qed.

Lemma deg_minus x y : deg (x - y) = deg x - deg y.
Proof. unfold deg. field. apply PI_neq0. Qed.

Lemma deg_0 : deg 0 = 0.
Proof. unfold deg. field. apply PI_neq0. Qed.

(** ** The azimuth quadrant correction *)

(** C5.  For every real hour angle [sh_angle], whatever the latitude, the
    declination and the elevation: [solar_azimuth_angle] returns [rad (-90)]
    when the hour angle in degrees is 0, [0] when it is -90, [rad 180] when
    it is 90, [- sh_angle - rad 90] when it is below -90 or strictly between
    -90 and 0 or strictly between 0 and 90, and [rad 270 - sh_angle] when it
    is above 90; the final [raise] is never reached. *)
Theorem solar_azimuth_angle_quadrants (latitude d_angle sh_angle e_angle : R) :
  (deg sh_angle = 0 ->
   solar_azimuth_angle latitude d_angle sh_angle e_angle = Ok (rad (-90))) /\
  (deg sh_angle = -90 ->
   solar_azimuth_angle latitude d_angle sh_angle e_angle = Ok 0) /\
  (deg sh_angle = 90 ->
   solar_azimuth_angle latitude d_angle sh_angle e_angle = Ok (rad 180)) /\
  (deg sh_angle < -90 \/ 0 < deg sh_angle < 90 \/ -90 < deg sh_angle < 0 ->
   solar_azimuth_angle latitude d_angle sh_angle e_angle
   = Ok (- sh_angle - rad 90)) /\
  (deg sh_angle > 90 ->
   solar_azimuth_angle latitude d_angle sh_angle e_angle
   = Ok (rad 270 - sh_angle)) /\
  (exists azimuth,
     solar_azimuth_angle latitude d_angle sh_angle e_angle = Ok azimuth).
Proof.
  unfold solar_azimuth_angle.
  repeat split; try intros H; cmp; simpl;
    try reflexivity; try lra; try (eexists; reflexivity).
Qed.

Lemma solar_azimuth_angle_quadrants_witness :
  solar_azimuth_angle 40 0 0 0 = Ok (rad (-90)).
Proof.
  apply (proj1 (solar_azimuth_angle_quadrants 40 0 0 0)).
  apply deg_0.
Defined.

(** ** The solar vector *)

Lemma math_sqrt_nonneg x : 0 <= x -> math_sqrt x = Ok (sqrt x).
Proof. intros H. unfold math_sqrt. cmp; [lra | reflexivity]. Qed.

Lemma ratio_bounds n d : 0 <= n <= d -> 0 <= n / d <= 1.
Proof.
  intros [Hn Hd]. destruct (Req_dec_T d 0) as [E | E].
  - assert (n = 0) by lra. subst n. unfold Rdiv. rewrite Rmult_0_l. lra.
  - assert (Hpos : 0 < d) by lra. split.
    + apply Rle_mult_inv_pos; assumption.
    + apply Rmult_le_reg_r with d; [assumption |].
      replace (n / d * d) with n by (field; assumption). lra.
Qed.

Lemma vector_ratio_bounds e az : 0 <= vector_ratio e az <= 1.
Proof.
  unfold vector_ratio. apply ratio_bounds.
  pose proof (pow2_ge_0 (sin e)). pose proof (pow2_ge_0 (cos az)). nra.
Qed.

Lemma vector_ratio_value e az :
  cos az <> 0 -> vector_ratio e az = (sin e)^2 / (1 + (sin e)^2).
Proof.
  intros H. unfold vector_ratio. field. split.
  - pose proof (pow2_ge_0 (sin e)). lra.
  - pose proof (pow2_ge_0 (sin e)).
    assert (0 < (cos az)^2) by (destruct (Rtotal_order (cos az) 0) as [L | [L | L]]; nra).
    nra.
Qed.

(** [math.sqrt] never fails in [get_solar_vector]. *)
Lemma get_solar_vector_value e az :
  get_solar_vector e az
  = Ok (sqrt (vector_ratio e az),
        - cos e * sqrt (1 - vector_ratio e az),
        sin e * sqrt (1 - vector_ratio e az)).
Proof.
  pose proof (vector_ratio_bounds e az) as B.
  unfold get_solar_vector. fold (vector_ratio e az).
  rewrite !math_sqrt_nonneg by lra. reflexivity.
Qed.

Lemma sqrt_pow2_id x : 0 <= x -> (sqrt x)^2 = x.
Proof. intros H. simpl. rewrite Rmult_1_r. apply sqrt_sqrt. assumption. Qed.

Lemma solar_vector_norm2 e az :
  (sqrt (vector_ratio e az))^2
  + (- cos e * sqrt (1 - vector_ratio e az))^2
  + (sin e * sqrt (1 - vector_ratio e az))^2 = 1.
Proof.
  pose proof (vector_ratio_bounds e az) as B.
  pose proof (sin2_cos2 e) as T. unfold Rsqr in T.
  pose proof (sqrt_pow2_id (vector_ratio e az) ltac:(lra)) as E1.
  pose proof (sqrt_pow2_id (1 - vector_ratio e az) ltac:(lra)) as E2.
  replace ((- cos e * sqrt (1 - vector_ratio e az))^2)
    with ((cos e * cos e) * (sqrt (1 - vector_ratio e az))^2) by ring.
  replace ((sin e * sqrt (1 - vector_ratio e az))^2)
    with ((sin e * sin e) * (sqrt (1 - vector_ratio e az))^2) by ring.
  rewrite E1, E2. nra.
Qed.

(** C6.  Whenever the denominator [d**2 + b**2 * c**2] is not zero,
    [get_solar_vector] returns a vector whose Euclidean norm is exactly 1. *)
Theorem get_solar_vector_unit (e_angle a_angle : R) :
  (cos a_angle)^2 + (sin e_angle)^2 * (cos a_angle)^2 <> 0 ->
  exists x y z,
    get_solar_vector e_angle a_angle = Ok (x, y, z)
    /\ sqrt (x^2 + y^2 + z^2) = 1.
Proof.
  intros _. eexists _, _, _. split.
  - apply get_solar_vector_value.
  - rewrite solar_vector_norm2. apply sqrt_1.
Qed.

Lemma get_solar_vector_unit_witness :
  (cos 0)^2 + (sin 0)^2 * (cos 0)^2 <> 0
  /\ exists x y z,
       get_solar_vector 0 0 = Ok (x, y, z) /\ sqrt (x^2 + y^2 + z^2) = 1.
Proof.
  assert (H : (cos 0)^2 + (sin 0)^2 * (cos 0)^2 <> 0)
    by (rewrite cos_0, sin_0; lra).
  split; [exact H | exact (get_solar_vector_unit 0 0 H)].
Defined.

(** C10.  The x-component of [get_solar_vector] does not depend on the
    azimuth: for azimuths with a nonzero cosine it is
    [|sin e| / sqrt (1 + sin^2 e)], because [c] and [d] are both
    [cos a_angle]. *)
Theorem get_solar_vector_x_ignores_azimuth (e_angle a1 a2 : R) :
  cos a1 <> 0 -> cos a2 <> 0 ->
  exists x y1 z1 y2 z2,
    get_solar_vector e_angle a1 = Ok (x, y1, z1)
    /\ get_solar_vector e_angle a2 = Ok (x, y2, z2)
    /\ x = Rabs (sin e_angle) / sqrt (1 + (sin e_angle)^2).
Proof.
  intros H1 H2.
  assert (P : 0 < 1 + (sin e_angle)^2)
    by (pose proof (pow2_ge_0 (sin e_angle)); lra).
  assert (E : forall az, cos az <> 0 ->
            sqrt (vector_ratio e_angle az)
            = Rabs (sin e_angle) / sqrt (1 + (sin e_angle)^2)).
  { intros az Haz. rewrite vector_ratio_value by assumption.
    rewrite sqrt_div_alt by assumption.
    replace ((sin e_angle)^2) with (Rsqr (sin e_angle)) by (unfold Rsqr; ring).
    rewrite sqrt_Rsqr_abs. reflexivity. }
  eexists _, _, _, _, _. split; [| split].
  - rewrite get_solar_vector_value. rewrite (E a1 H1). reflexivity.
  - rewrite get_solar_vector_value. rewrite (E a2 H2). reflexivity.
  - reflexivity.
Qed.

Lemma get_solar_vector_x_ignores_azimuth_witness :
  exists x y1 z1 y2 z2,
    get_solar_vector 0 0 = Ok (x, y1, z1)
    /\ get_solar_vector 0 PI = Ok (x, y2, z2)
    /\ x = Rabs (sin 0) / sqrt (1 + (sin 0)^2).
Proof.
  apply (get_solar_vector_x_ignores_azimuth 0 0 PI).
  - rewrite cos_0. lra.
  - rewrite cos_PI. lra.
Defined.

(** ** The efficiency coefficient *)

Lemma cos_between_value (xa ya za xb yb zb : R) :
  cos_between (xa, ya, za) (xb, yb, zb)
  = Ok ((xa * xb + ya * yb + za * zb)
        / (sqrt (xa^2 + ya^2 + za^2) * sqrt (xb^2 + yb^2 + zb^2))).
Proof.
  unfold cos_between.
  rewrite !math_sqrt_nonneg; [reflexivity | |].
  - pose proof (pow2_ge_0 xb); pose proof (pow2_ge_0 yb);
      pose proof (pow2_ge_0 zb); lra.
  - pose proof (pow2_ge_0 xa); pose proof (pow2_ge_0 ya);
      pose proof (pow2_ge_0 za); lra.
Qed.

Lemma sqrt3_square : sqrt 3 * sqrt 3 = 3.
Proof. apply sqrt_sqrt. lra. Qed.

(** C4, on the code.  For the nonzero vector (1, 1, 1) against itself the
    angle is 0 and the coefficient 0.90 in exact arithmetic.  On doubles
    the quotient [3 / (sqrt 3 * sqrt 3)] is the double next above 1, which
    is outside the domain of [acos]: [np.acos] gives nan, both tests
    against the bounds are false, and nan is returned without an error.
    For the nonzero vector (1e-200, 0, 0) against (1, 0, 0) the square
    underflows to 0 and the division raises [ZeroDivisionError], which is
    not the domain error. *)
Theorem get_efficiency_coefficient_nan_on_doubles
    (libm_acos : PrimFloat.float -> PrimFloat.float) :
  get_efficiency_coefficient (1, 1, 1) (1, 1, 1) = Ok 0.90
  /\ Double.cos_between Double.ones Double.ones = Double.Done Double.above_one
  /\ PrimFloat.ltb PrimFloat.one Double.above_one = true
  /\ Double.get_efficiency_coefficient libm_acos Double.ones Double.ones
     = Double.Done PrimFloat.nan
  /\ Double.get_efficiency_coefficient libm_acos Double.tiny_x Double.unit_x
     = Double.Raised Double.ZeroDivisionError.
Proof.
  split; [| repeat split; vm_compute; reflexivity].
  unfold get_efficiency_coefficient. rewrite cos_between_value. cbn [bind].
  replace (1^2 + 1^2 + 1^2) with 3 by ring.
  replace ((1 * 1 + 1 * 1 + 1 * 1) / (sqrt 3 * sqrt 3)) with 1
    by (rewrite sqrt3_square; lra).
  rewrite acos_1, deg_0. pose proof PI_RGT_0.
  cmp; try (exfalso; lra).
  rewrite Rabs_R0. f_equal. lra.
Qed.

(** ** The hourly production formula *)

Lemma temp_drop_of_spec T : temp_drop_of T = temp_drop_spec T.
Proof.
  unfold temp_drop_of, temp_drop_spec.
  destruct (Rle_dec ((T - 32) / 1.8) 25); cmp; lra.
Qed.

Lemma fold_left_accumulate (g : R -> R) (l : list R) (a : R) :
  fold_left (fun acc e => acc + g e) l a = a + fold_right Rplus 0 (map g l).
Proof.
  revert a. induction l as [| e l IH]; intros a; simpl.
  - lra.
  - rewrite IH. lra.
Qed.

Lemma temp_drop_of_86 : temp_drop_of 86 = 0.85.
Proof. unfold temp_drop_of. cmp; lra. Qed.

Lemma round_half_even_below (n : Z) (y : R) :
  IZR n <= y < IZR n + 1 / 2 -> round_half_even y = n.
Proof.
  intros H. unfold round_half_even.
  rewrite (Zfloor_eq n y) by lra.
  cmp; [reflexivity | lra | lra].
Qed.

(** C9.  [calc_hourly_production] is the sum of the rounded per-minute
    productions divided by 60, with the temperature derating of the
    specification; for [T = 86], [C = 50] and [efficiency_data = [0.5]] the
    accumulation before the division is
    [round(610*90*0.5*0.85*0.5/1000, 3)], which is 11.666. *)
Theorem calc_hourly_production_formula :
  (forall (T C : R) (efficiency_data : list R),
     calc_hourly_production T C efficiency_data
     = hourly_production_spec T C efficiency_data)
  /\ accumulated_production 86 50 [0.5]
     = round3 (610 * 90 * 0.5 * 0.85 * 0.5 / 1000)
  /\ round3 (610 * 90 * 0.5 * 0.85 * 0.5 / 1000) = 11.666.
Proof.
  split; [| split].
  - intros T C l.
    unfold calc_hourly_production, hourly_production_spec,
      accumulated_production.
    rewrite (fold_left_accumulate
               (fun e => round3 (610 * 90 * (e * temp_drop_of T * (1 - C / 100)) / 1000))).
    rewrite Rplus_0_l. f_equal. f_equal.
    apply map_ext. intros e. unfold produced_spec.
    rewrite temp_drop_of_spec. f_equal. lra.
  - unfold accumulated_production. cbn [fold_left].
    rewrite temp_drop_of_86, Rplus_0_l. f_equal. lra.
  - unfold round3. rewrite (round_half_even_below 11666); lra.
Qed.

(** ** Ranges of the elevation and of the azimuth *)

Lemma deg_half_PI : deg (PI / 2) = 90.
Proof. unfold deg. field. apply PI_neq0. Qed.

Lemma eot_bound time day leap : -21 <= eot time day leap <= 21.
Proof.
  unfold eot.
  set (y := 2 * PI / day_divisor leap * (day - 1 + (time / 60 - 12) / 24)).
  pose proof (COS_bound y). pose proof (SIN_bound y).
  pose proof (COS_bound (2 * y)). pose proof (SIN_bound (2 * y)).
  lra.
Qed.

Lemma deg_between a lo hi : rad lo <= a <= rad hi -> lo <= deg a <= hi.
Proof.
  intros [L H]. apply deg_le in L. apply deg_le in H.
  rewrite deg_rad in L, H. lra.
Qed.

Lemma deg_solar_hour_angle time day longitude tz leap :
  deg (solar_hour_angle time day longitude tz leap)
  = (time + eot time day leap + 4 * (longitude - 15 * tz)) / 4 - 180.
Proof. unfold solar_hour_angle, c_lst. apply deg_rad. Qed.

Lemma solar_elevation_angle_range latitude d_angle sh_angle :
  -90 <= deg (solar_elevation_angle latitude d_angle sh_angle) <= 90.
Proof.
  unfold solar_elevation_angle.
  match goal with |- context [asin ?x] => pose proof (asin_bound x) as B end.
  apply deg_between. unfold rad in *. lra.
Qed.

(** The value of the azimuth: it depends on the hour angle only. *)
Lemma solar_azimuth_angle_value latitude d_angle sh_angle e_angle :
  exists azimuth,
    solar_azimuth_angle latitude d_angle sh_angle e_angle = Ok azimuth
    /\ (deg sh_angle = 0 -> deg azimuth = -90)
    /\ (deg sh_angle = -90 -> deg azimuth = 0)
    /\ (deg sh_angle = 90 -> deg azimuth = 180)
    /\ (deg sh_angle < 90 -> deg sh_angle <> 0 -> deg sh_angle <> -90 ->
        deg azimuth = - deg sh_angle - 90)
    /\ (90 < deg sh_angle -> deg azimuth = 270 - deg sh_angle).
Proof.
  unfold solar_azimuth_angle.
  cmp; simpl; try (exfalso; lra); eexists; (split; [reflexivity |]);
    rewrite ?deg_minus, ?deg_opp, ?deg_rad, ?deg_0;
    repeat split; intros; lra.
Qed.

Lemma solar_azimuth_angle_range latitude d_angle sh_angle e_angle :
  -270 <= deg sh_angle <= 450 ->
  exists azimuth,
    solar_azimuth_angle latitude d_angle sh_angle e_angle = Ok azimuth
    /\ -180 <= deg azimuth <= 180.
Proof.
  intros H.
  destruct (solar_azimuth_angle_value latitude d_angle sh_angle e_angle)
    as (az & E & H0 & Hm & Hp & Hlow & Hhigh).
  exists az. split; [assumption |].
  destruct (Req_dec_T (deg sh_angle) 0) as [E0 | N0]; [rewrite (H0 E0); lra |].
  destruct (Req_dec_T (deg sh_angle) (-90)) as [Em | Nm]; [rewrite (Hm Em); lra |].
  destruct (Req_dec_T (deg sh_angle) 90) as [Ep | Np]; [rewrite (Hp Ep); lra |].
  destruct (Rlt_dec (deg sh_angle) 90) as [L | L].
  - rewrite (Hlow L N0 Nm). lra.
  - rewrite Hhigh by lra. lra.
Qed.

(** At longitude -180 and midnight of day 0 (UTC offset -5) the azimuth is
    above 180 degrees. *)
Lemma azimuth_above_180_at_midnight :
  exists data,
    solar_data 0 (-180) 0 0 (-5) false = Ok data
    /\ -90 <= 0 <= 90 /\ -180 <= -180 <= 180
    /\ 180 < deg (a_angle data).
Proof.
  unfold solar_data.
  set (d := declination_angle 0 false).
  set (sh := solar_hour_angle 0 0 (-180) (-5) false).
  set (e := solar_elevation_angle 0 d sh).
  destruct (solar_azimuth_angle_value 0 d sh e)
    as (az & E & _ & _ & _ & Hlow & _).
  assert (Hsh : deg sh = eot 0 0 false / 4 - 285).
  { unfold sh. rewrite deg_solar_hour_angle. lra. }
  pose proof (eot_bound 0 0 false) as B.
  exists (mkAngles e az). rewrite E. cbn [bind a_angle].
  split; [reflexivity |]. split; [lra |]. split; [lra |].
  rewrite Hlow by lra. lra.
Qed.

(** C8, amended.  The elevation always lies in [-90, 90] degrees.  The
    azimuth lies in [-180, 180] degrees whenever the hour angle lies in
    [-270, 450] degrees; with the UTC offset -5 of the generator this is the
    case for every longitude in [-180, 180] at every minute of the hours 5
    to 21 (minutes 300 to 1319 of the day). *)
Theorem solar_angles_range (latitude longitude day time : R) (leap : bool) :
  (forall d_angle sh_angle,
     -90 <= deg (solar_elevation_angle latitude d_angle sh_angle) <= 90)
  /\ (forall d_angle sh_angle e_angle,
        -270 <= deg sh_angle <= 450 ->
        exists azimuth,
          solar_azimuth_angle latitude d_angle sh_angle e_angle = Ok azimuth
          /\ -180 <= deg azimuth <= 180)
  /\ (-180 <= longitude <= 180 -> 300 <= time <= 1319 ->
      exists data,
        solar_data latitude longitude day time (-5) leap = Ok data
        /\ -90 <= deg (e_angle data) <= 90
        /\ -180 <= deg (a_angle data) <= 180).
Proof.
  split; [| split].
  - intros. apply solar_elevation_angle_range.
  - intros. apply solar_azimuth_angle_range. assumption.
  - intros Hl Ht. unfold solar_data.
    set (d := declination_angle day leap).
    set (sh := solar_hour_angle time day longitude (-5) leap).
    set (e := solar_elevation_angle latitude d sh).
    assert (Hsh : -270 <= deg sh <= 450).
    { unfold sh. rewrite deg_solar_hour_angle.
      pose proof (eot_bound time day leap). lra. }
    destruct (solar_azimuth_angle_range latitude d sh e Hsh) as (az & E & B).
    exists (mkAngles e az). rewrite E. cbn [bind e_angle a_angle].
    split; [reflexivity |]. split; [| assumption].
    apply solar_elevation_angle_range.
Qed.

Lemma solar_angles_range_witness :
  exists data,
    solar_data 40 (-75) 0 720 (-5) false = Ok data
    /\ -90 <= deg (e_angle data) <= 90
    /\ -180 <= deg (a_angle data) <= 180.
Proof.
  apply (proj2 (proj2 (solar_angles_range 40 (-75) 0 720 false))); lra.
Defined.

(** ** Loops *)

Lemma foldM_app {S A : Type} (f : S -> A -> result S) (l1 l2 : list A) (s : S) :
  foldM f (l1 ++ l2) s = let* s' := foldM f l1 s in foldM f l2 s'.
Proof.
  revert s. induction l1 as [| a l1 IH]; intros s; simpl; [reflexivity |].
  destruct (f s a); simpl; [apply IH | reflexivity].
Qed.

Lemma mapM_ext {A B : Type} (f g : A -> result B) (l : list A) :
  (forall a, In a l -> f a = g a) -> mapM f l = mapM g l.
Proof.
  induction l as [| a l IH]; intros H; simpl; [reflexivity |].
  rewrite (H a) by (left; reflexivity).
  rewrite IH by (intros; apply H; right; assumption). reflexivity.
Qed.

(** A loop whose body never raises returns one result per element. *)
Lemma mapM_total {A B : Type} (f : A -> result B) (P : A -> Prop)
    (Q : A -> B -> Prop) (l : list A) :
  (forall a, P a -> exists b, f a = Ok b /\ Q a b) ->
  Forall P l ->
  exists bs, mapM f l = Ok bs /\ Forall2 Q l bs.
Proof.
  intros Hf. induction 1 as [| a l Ha Hl IH]; simpl.
  - exists []. split; [reflexivity | constructor].
  - destruct (Hf a Ha) as (b & Eb & Qb). destruct IH as (bs & Ebs & Qbs).
    exists (b :: bs). rewrite Eb, Ebs. split; [reflexivity |].
    constructor; assumption.
Qed.

Lemma last_nonempty_default {X : Type} (l : list X) (d d' : X) :
  l <> [] -> last l d = last l d'.
Proof.
  induction l as [| a l IH]; intros H; [contradiction |].
  destruct l as [| b l]; [reflexivity |].
  change (last (a :: b :: l) d) with (last (b :: l) d).
  change (last (a :: b :: l) d') with (last (b :: l) d').
  apply IH. discriminate.
Qed.

Lemma last_cons_default {X : Type} (a : X) (l : list X) (d : X) :
  last (a :: l) d = last l a.
Proof.
  destruct l as [| b l]; [reflexivity |].
  change (last (a :: b :: l) d) with (last (b :: l) d).
  apply last_nonempty_default. discriminate.
Qed.

Lemma last_app_default {X : Type} (l1 l2 : list X) (d : X) :
  last (l1 ++ l2) d = last l2 (last l1 d).
Proof.
  revert d. induction l1 as [| a l1 IH]; intros d; [reflexivity |].
  rewrite <- app_comm_cons, !last_cons_default. apply IH.
Qed.

Lemma last_Forall {X : Type} (P : X -> Prop) (l : list X) (d : X) :
  l <> [] -> Forall P l -> P (last l d).
Proof.
  induction l as [| a l IH]; intros Hne Hall; [contradiction |].
  inversion Hall as [| ? ? Pa Pl]; subst.
  destruct l as [| b l]; [exact Pa |].
  change (last (a :: b :: l) d) with (last (b :: l) d).
  apply IH; [discriminate | assumption].
Qed.

(** ** The scan of a day *)

Section ScanFacts.

Variable A : Type.
Variable solar_data_at : nat -> result A.
Variable sample : nat -> A.
Variable is_valid : A -> bool.
Hypothesis solar_data_at_sample : forall time, solar_data_at time = Ok (sample time).

(** The minute loop from a state in which [has_started] is [False]: the flag
    stays [False], the end of the day is not touched and the start of the
    day is overwritten at every admitted minute. *)
Lemma minute_loop_value (hour : nat) (mins : list nat) (v : DayVars)
    (hour_data : HourData A) :
  has_started v = false ->
  foldM (minute_step solar_data_at is_valid hour) mins (v, hour_data)
  = let vs := valid_among sample is_valid hour mins in
    let start := last (map (stamp hour) vs) (day_start_hour v, day_start_min v) in
    Ok (mkDayVars false (fst start) (snd start) (day_end_hour v) (day_end_min v),
        mkHourData (hd_month hour_data) (hd_day hour_data) (hd_hour hour_data)
          (angle_data hour_data ++ map (fun min => sample (hour * 60 + min)) vs)
          (last (map (fun min => Some (stamp hour min)) vs) (start_time hour_data))
          (end_time hour_data)).
Proof.
  revert v hour_data. induction mins as [| min mins IH]; intros v hour_data Hv.
  - destruct v, hour_data; simpl in *; subst. rewrite app_nil_r. reflexivity.
  - cbn [foldM]. unfold minute_step at 1.
    rewrite solar_data_at_sample. cbn [bind].
    unfold valid_among. cbn [filter]. fold (valid_among sample is_valid hour mins).
    destruct (is_valid (sample (hour * 60 + min))) eqn:V.
    + rewrite Hv. cbn [negb bind].
      match goal with
      | |- foldM _ mins (?v', ?hd') = _ => rewrite (IH v' hd' eq_refl)
      end.
      cbn [map]. rewrite !last_cons_default.
      cbn [has_started day_start_hour day_start_min day_end_hour day_end_min
           hd_month hd_day hd_hour angle_data start_time end_time].
      rewrite <- app_assoc. reflexivity.
    + rewrite Hv. cbn [bind]. apply IH. assumption.
Qed.

Lemma hour_loop_value (month : string) (day : Z) (hours : list nat)
    (v : DayVars) (day_data : list (HourData A)) :
  has_started v = false ->
  foldM (hour_step solar_data_at is_valid month day) hours (v, day_data)
  = let start :=
      last (valid_stamps sample is_valid hours)
           (day_start_hour v, day_start_min v) in
    Ok (mkDayVars false (fst start) (snd start) (day_end_hour v) (day_end_min v),
        day_data ++ map (scanned_hour sample is_valid month day) hours).
Proof.
  revert v day_data. induction hours as [| hour hours IH]; intros v day_data Hv.
  - destruct v; simpl in *; subst. rewrite app_nil_r. reflexivity.
  - cbn [foldM]. unfold hour_step at 1.
    rewrite minute_loop_value by assumption. cbn zeta. cbn [bind].
    match goal with
    | |- foldM _ hours (?v', ?dd') = _ => rewrite (IH v' dd' eq_refl)
    end.
    cbn zeta.
    cbn [has_started day_start_hour day_start_min day_end_hour day_end_min
         hd_month hd_day hd_hour angle_data start_time end_time].
    unfold valid_stamps. cbn [flat_map map].
    rewrite last_app_default, <- surjective_pairing, <- app_assoc.
    cbn [app]. unfold scanned_hour, valid_minutes. reflexivity.
Qed.

(** The scan of [scan_day]: [has_started] is still [False] at the end of
    the day, the end of the day is still 00:00, and the start of the day is
    the last admitted minute (00:00 when there is none). *)
Lemma scan_day_value (month : string) (day : Z) :
  scan_day solar_data_at is_valid month day
  = let start := last_valid_minute sample is_valid in
    Ok (mkDayVars false (fst start) (snd start) 0 0,
        map (scanned_hour sample is_valid month day) (seq 5 17)).
Proof.
  unfold scan_day, last_valid_minute.
  rewrite (hour_loop_value month day (seq 5 17) day_vars_init [] eq_refl).
  unfold day_vars_init.
  cbn [app day_start_hour day_start_min day_end_hour day_end_min].
  reflexivity.
Qed.

End ScanFacts.

(** ** Samples *)

Lemma solar_data_of_day_value lat long day time :
  solar_data_of_day lat long day time = Ok (angles_at lat long day time).
Proof.
  unfold angles_at.
  assert (H : exists data, solar_data_of_day lat long day time = Ok data).
  { unfold solar_data_of_day, solar_data.
    match goal with
    | |- context [solar_azimuth_angle ?l ?d ?sh ?e] =>
        destruct (solar_azimuth_angle_value l d sh e) as (az & E & _)
    end.
    rewrite E. eexists. reflexivity. }
  destruct H as (data & E). rewrite E. reflexivity.
Qed.

Lemma angles_at_elevation lat long day time :
  - (PI / 2) <= e_angle (angles_at lat long day time) <= PI / 2.
Proof.
  pose proof (solar_data_of_day_value lat long day time) as E.
  unfold solar_data_of_day, solar_data in E.
  match type of E with
  | context [solar_azimuth_angle ?l ?d ?sh ?e] =>
      destruct (solar_azimuth_angle l d sh e) as [az |]; [| discriminate]
  end.
  cbn [bind] in E. injection E as E. rewrite <- E. cbn [e_angle].
  unfold solar_elevation_angle. apply asin_bound.
Qed.

(** ** Inverse trigonometric functions on nonnegative arguments *)

Lemma atan_nonneg x : 0 <= x -> 0 <= atan x.
Proof.
  intros [H | H].
  - apply Rlt_le. rewrite <- atan_0. apply atan_increasing. assumption.
  - subst x. rewrite atan_0. lra.
Qed.

Lemma quotient_sqrt_nonneg x : 0 <= x < 1 -> 0 <= x / sqrt (1 - x²).
Proof.
  intros H.
  assert (0 < 1 - x²) by (unfold Rsqr; nra).
  assert (0 < sqrt (1 - x²)) by (apply sqrt_lt_R0; assumption).
  apply Rle_mult_inv_pos; lra.
Qed.

Lemma asin_nonneg x : 0 <= x -> 0 <= asin x.
Proof.
  intros H. pose proof PI_RGT_0. unfold asin.
  destruct (Rle_dec x (-1)); [lra |].
  destruct (Rle_dec 1 x); [lra |].
  apply atan_nonneg, quotient_sqrt_nonneg. lra.
Qed.

Lemma acos_nonneg x : 0 <= x -> 0 <= acos x <= PI / 2.
Proof.
  intros H. pose proof PI_RGT_0. unfold acos.
  destruct (Rle_dec x (-1)); [lra |].
  destruct (Rle_dec 1 x); [lra |].
  pose proof (atan_bound (x / sqrt (1 - x²))).
  assert (0 <= atan (x / sqrt (1 - x²)))
    by (apply atan_nonneg, quotient_sqrt_nonneg; lra).
  lra.
Qed.

(** ** Coefficients of the admitted minutes *)

(** Whatever the two vectors are, a coefficient that is returned lies
    in [0, 0.90]. *)
Lemma get_efficiency_coefficient_range panel_normal solar_vector c :
  get_efficiency_coefficient panel_normal solar_vector = Ok c ->
  0 <= c <= 0.90.
Proof.
  unfold get_efficiency_coefficient.
  destruct (cos_between panel_normal solar_vector) as [q |]; [| discriminate].
  cbn [bind]. cmp; intros E; try discriminate.
  injection E as E. subst c.
  rewrite Rabs_right by lra. lra.
Qed.

Lemma panel_normal_45_norm :
  0^2 + (- cos (rad 45))^2 + (sin (rad 45))^2 = 1.
Proof.
  pose proof (sin2_cos2 (rad 45)) as T. unfold Rsqr in T. nra.
Qed.

Lemma panel_normal_45_nonneg : 0 <= cos (rad 45) /\ 0 <= sin (rad 45).
Proof.
  pose proof PI_RGT_0.
  assert (R45 : rad 45 = PI / 4) by (unfold rad; lra).
  rewrite R45. split.
  - apply cos_ge_0; lra.
  - apply sin_ge_0; lra.
Qed.

(** Against the 45 degree normal, a sample whose elevation is in
    [0, PI/2] never raises. *)
Lemma coefficient_45_total e az :
  0 <= e <= PI / 2 ->
  exists c,
    (let* solar_vector := get_solar_vector e az in
     get_efficiency_coefficient (0, - cos (rad 45), sin (rad 45)) solar_vector)
    = Ok c
    /\ 0 <= c <= 0.90.
Proof.
  intros He. pose proof PI_RGT_0.
  rewrite get_solar_vector_value. cbn [bind].
  set (s := sqrt (1 - vector_ratio e az)).
  assert (Hs : 0 <= s) by apply sqrt_pos.
  assert (Hc : 0 <= cos e) by (apply cos_ge_0; lra).
  assert (Hn : 0 <= sin e) by (apply sin_ge_0; lra).
  destruct panel_normal_45_nonneg as [P1 P2].
  unfold get_efficiency_coefficient. rewrite cos_between_value.
  rewrite panel_normal_45_norm. unfold s. rewrite solar_vector_norm2.
  fold s. rewrite sqrt_1. cbn [bind].
  match goal with |- context [acos ?t] => set (q := t) end.
  assert (Hq : 0 <= q).
  { unfold q.
    replace ((0 * sqrt (vector_ratio e az) + - cos (rad 45) * (- cos e * s)
              + sin (rad 45) * (sin e * s)) / (1 * 1))
      with (cos (rad 45) * (cos e * s) + sin (rad 45) * (sin e * s))
      by (field; lra).
    pose proof (Rmult_le_pos _ _ Hc Hs). pose proof (Rmult_le_pos _ _ Hn Hs).
    nra. }
  pose proof (acos_nonneg q Hq) as [A1 A2].
  assert (D : 0 <= deg (acos q) <= 90) by (apply deg_between; unfold rad; lra).
  cmp; try lra.
  eexists. split; [reflexivity |].
  rewrite Rabs_right by lra. lra.
Qed.

(** ** The efficiency pass and the loop over the days *)

Lemma Forall2_right {X Y : Type} (Q : Y -> Prop) (l : list X) (l' : list Y) :
  Forall2 (fun _ y => Q y) l l' -> Forall Q l'.
Proof. induction 1; constructor; assumption. Qed.

Lemma Forall2_map_eq {X Y Z : Type} (f : X -> Z) (g : Y -> Z) (Q : Y -> Prop)
    (l : list X) (l' : list Y) :
  Forall2 (fun x y => g y = f x /\ Q y) l l' ->
  map g l' = map f l /\ Forall Q l'.
Proof.
  induction 1 as [| x y l l' [E Qy] _ [IH1 IH2]]; simpl.
  - split; [reflexivity | constructor].
  - split; [rewrite E, IH1; reflexivity | constructor; assumption].
Qed.

Lemma is_valid_angles_elevation data :
  is_valid_angles data = true -> 0 <= e_angle data.
Proof.
  unfold is_valid_angles. intros H.
  apply andb_true_iff in H. destruct H as [H _].
  apply andb_true_iff in H. destruct H as [H _].
  apply Rge_b_true in H. apply deg_le. rewrite deg_0. lra.
Qed.

Lemma valid_minutes_In {A : Type} (sample : nat -> A) (is_valid : A -> bool)
    (hour min : nat) :
  In min (valid_minutes sample is_valid hour) ->
  is_valid (sample (hour * 60 + min)%nat) = true.
Proof.
  unfold valid_minutes, valid_among. intros H.
  apply filter_In in H. apply H.
Qed.

Lemma scanned_hour_samples lat long day month dm hour :
  Forall elevation_up
    (angle_data (scanned_hour (angles_at lat long day) is_valid_angles
                   month dm hour)).
Proof.
  unfold scanned_hour. cbn [angle_data].
  apply Forall_map, Forall_forall. intros min Hin.
  apply valid_minutes_In in Hin. split.
  - apply is_valid_angles_elevation. assumption.
  - apply angles_at_elevation.
Qed.

Lemma efficiency_pass_45_total w hour_data :
  Forall elevation_up (angle_data hour_data) ->
  exists r,
    efficiency_pass winter_panel_normal summer_panel_normal w hour_data = Ok r
    /\ hour r = hd_hour hour_data /\ in_range r.
Proof.
  intros H. unfold efficiency_pass.
  destruct (mapM_total
              (coefficient_of winter_panel_normal summer_panel_normal w)
              elevation_up (fun _ c => 0 <= c <= 0.90)
              (angle_data hour_data)) as (cs & E & Q).
  - intros data Hd. unfold coefficient_of.
    destruct (coefficient_45_total (e_angle data) (a_angle data) Hd)
      as (c & Ec & Rc).
    exists c. split; [| assumption].
    destruct (get_solar_vector (e_angle data) (a_angle data)) as [v |];
      [| discriminate].
    cbn [bind] in *. unfold winter_panel_normal, summer_panel_normal.
    destruct w; assumption.
  - assumption.
  - rewrite E. cbn [bind]. eexists. split; [reflexivity |].
    cbn [hour]. split; [reflexivity |].
    unfold in_range. cbn [efficiency_data].
    apply (Forall2_right _ _ _ Q).
Qed.

Lemma day_step_45 lat long month_table w data day :
  exists w' records,
    day_step lat long winter_panel_normal summer_panel_normal month_table
      (w, data) day
    = Ok (w', data ++ records)
    /\ map hour records = seq 5 17
    /\ Forall in_range records.
Proof.
  unfold day_step. destruct (month_table day) as [month day_subtractor].
  rewrite (scan_day_value _ (solar_data_of_day lat long day)
             (angles_at lat long day) is_valid_angles
             (solar_data_of_day_value lat long day)).
  cbn zeta. cbn [bind].
  match goal with
  | |- context [mapM (efficiency_pass _ _ ?b) ?l] =>
      destruct (mapM_total
                  (efficiency_pass winter_panel_normal summer_panel_normal b)
                  (fun hd => Forall elevation_up (angle_data hd))
                  (fun hd r => hour r = hd_hour hd /\ in_range r) l)
        as (records & E & Q)
  end.
  - intros hd Hhd. apply efficiency_pass_45_total. assumption.
  - apply Forall_map, Forall_forall. intros hour _.
    apply scanned_hour_samples.
  - rewrite E. cbn [bind]. eexists _, records. split; [reflexivity |].
    apply Forall2_map_eq in Q. destruct Q as [Q1 Q2].
    split; [| assumption].
    rewrite Q1, map_map. unfold scanned_hour. cbn [hd_hour].
    apply map_id.
Qed.

Lemma repeat_snoc {X : Type} (x : X) (n : nat) :
  repeat x (S n) = repeat x n ++ [x].
Proof.
  induction n as [| n IH]; [reflexivity |].
  change (repeat x (S (S n))) with (x :: repeat x (S n)).
  rewrite IH at 1. reflexivity.
Qed.

(** With the two 45 degree normals no day raises: after [n] days the loop
    holds 17 records per day, for the hours 5 to 21, and every coefficient
    is in range. *)
Lemma year_state_45 lat long month_table n :
  exists w data,
    year_state lat long winter_panel_normal summer_panel_normal month_table n
    = Ok (w, data)
    /\ map hour data = concat (repeat (seq 5 17) n)
    /\ Forall in_range data.
Proof.
  induction n as [| n (w & data & E & Hh & Hr)].
  - exists true, []. repeat split; constructor.
  - unfold year_state in *. rewrite seq_S, foldM_app, E. cbn [bind foldM].
    change (0 + n)%nat with n.
    destruct (day_step_45 lat long month_table w data n)
      as (w' & records & E' & Hh' & Hr').
    rewrite E'. cbn [bind]. exists w', (data ++ records).
    split; [reflexivity |]. split.
    + rewrite map_app, Hh, Hh', repeat_snoc, concat_app. cbn [concat].
      rewrite app_nil_r. reflexivity.
    + apply Forall_app. split; assumption.
Qed.

Lemma length_concat_repeat {X : Type} (l : list X) (n : nat) :
  length (concat (repeat l n)) = (n * length l)%nat.
Proof.
  induction n as [| n IH]; [reflexivity |].
  cbn [repeat concat]. rewrite length_app, IH. reflexivity.
Qed.

Lemma fetch_solar_data_value lat long :
  exists regular_data leap_year_data,
    fetch_solar_data lat long = Ok (regular_data, leap_year_data)
    /\ map hour regular_data = concat (repeat (seq 5 17) 365)
    /\ map hour leap_year_data = concat (repeat (seq 5 17) 366)
    /\ Forall in_range regular_data
    /\ Forall in_range leap_year_data.
Proof.
  destruct (year_state_45 lat long month_regular 365) as (w1 & d1 & E1 & H1 & R1).
  destruct (year_state_45 lat long month_leap 366) as (w2 & d2 & E2 & H2 & R2).
  exists d1, d2. unfold fetch_solar_data, year_data.
  rewrite E1, E2. cbn [bind snd]. repeat split; assumption.
Qed.

(** ** The two year profiles *)

(** C7.  [fetch_solar_data] returns two sequences; the regular one has
    [365 * 17] records and the leap one [366 * 17], and each day contributes
    one record per hour from 5 to 21, in this order. *)
Theorem fetch_solar_data_counts (lat long : R) :
  exists regular_data leap_year_data,
    fetch_solar_data lat long = Ok (regular_data, leap_year_data)
    /\ length regular_data = (365 * 17)%nat
    /\ length leap_year_data = (366 * 17)%nat
    /\ map hour regular_data = concat (repeat (seq 5 17) 365)
    /\ map hour leap_year_data = concat (repeat (seq 5 17) 366).
Proof.
  destruct (fetch_solar_data_value lat long)
    as (reg & leap & E & H1 & H2 & _ & _).
  exists reg, leap. split; [assumption |].
  split; [| split; [| split; assumption]].
  - rewrite <- (length_map hour reg), H1, length_concat_repeat, length_seq.
    reflexivity.
  - rewrite <- (length_map hour leap), H2, length_concat_repeat, length_seq.
    reflexivity.
Qed.

(** C3.  Every element of every [efficiency_data] that [fetch_solar_data]
    produces, in both year variants, lies in [0, 0.90]. *)
Theorem efficiency_data_in_range (lat long : R) :
  exists regular_data leap_year_data,
    fetch_solar_data lat long = Ok (regular_data, leap_year_data)
    /\ Forall (fun r => Forall (fun c => 0 <= c <= 0.90) (efficiency_data r))
         (regular_data ++ leap_year_data).
Proof.
  destruct (fetch_solar_data_value lat long)
    as (reg & leap & E & _ & _ & R1 & R2).
  exists reg, leap. split; [assumption |].
  apply Forall_app. split; assumption.
Qed.

(** ** The winter/summer flag *)

Lemma toggle_xorb w hr : toggle w hr = xorb w (hr =? 12)%Z.
Proof. unfold toggle. destruct w, (hr =? 12)%Z; reflexivity. Qed.

Lemma efficiency_pass_against winter summer w hour_data :
  efficiency_pass winter summer w hour_data
  = efficiency_against (if w then winter else summer) hour_data.
Proof.
  unfold efficiency_pass, efficiency_against, coefficient_of.
  destruct w; reflexivity.
Qed.

(** C2.  Within one year variant the flag starts as winter ([true]); the
    scan of day [n] never raises, and the flag is flipped on day [n] exactly
    when the [day_hr] of that scan is 12; the flip comes before the
    efficiency pass, so the records of day [n] are computed against the
    normal that the flag selects after the flip of day [n]. *)
Theorem winter_flag_toggles (lat long : R) (winter summer : vec3)
    (month_table : nat -> string * Z) :
  year_state lat long winter summer month_table 0 = Ok (true, [])
  /\ forall n : nat,
       exists v day_data,
         scan_day (solar_data_of_day lat long n) is_valid_angles
           (fst (month_table n)) (Z.of_nat n - snd (month_table n))%Z
         = Ok (v, day_data)
         /\ year_state lat long winter summer month_table (S n)
            = let* s := year_state lat long winter summer month_table n in
              let is_winter_angle := xorb (fst s) (day_hr v =? 12)%Z in
              let* records :=
                mapM (efficiency_against
                        (if is_winter_angle then winter else summer))
                     day_data in
              Ok (is_winter_angle, snd s ++ records).
Proof.
  split; [reflexivity |]. intros n.
  pose proof (scan_day_value _ (solar_data_of_day lat long n)
                (angles_at lat long n) is_valid_angles
                (solar_data_of_day_value lat long n)
                (fst (month_table n)) (Z.of_nat n - snd (month_table n))%Z)
    as Escan.
  cbn zeta in Escan. eexists _, _. split; [exact Escan |].
  unfold year_state. rewrite seq_S, foldM_app.
  destruct (foldM _ (seq 0 n) (true, [])) as [[w data] |]; [| reflexivity].
  cbn [bind foldM fst snd]. change (0 + n)%nat with n.
  unfold day_step.
  rewrite (surjective_pairing (month_table n)) at 1.
  rewrite Escan. cbn [bind]. rewrite toggle_xorb.
  rewrite (mapM_ext _ _ _ (fun hd _ => efficiency_pass_against winter summer _ hd)).
  destruct (mapM _ _) as [records |]; reflexivity.
Qed.

(** ** The start and the end of the day *)

(** A run of the scan on a table: the sun is up from 07:20 to 16:40, and
    the scan ends with [day_start] at 16:40 and [day_end] at 00:00. *)
Example scan_day_0720_1640 :
  day_vars_of (scan_day table_0720_1640 (fun up => up) "01"%string 1%Z)
  = Ok (mkDayVars false 16 40 0 0)
  /\ first_valid_minute up_0720_1640 (fun up => up) = (7, 20)%Z
  /\ last_valid_minute up_0720_1640 (fun up => up) = (16, 40)%Z.
Proof. repeat split; vm_compute; reflexivity. Qed.

Lemma hours_split : seq 5 17 = seq 5 7 ++ 12%nat :: seq 13 9.
Proof. reflexivity. Qed.

Lemma minutes_split : seq 0 60 = [0%nat] ++ 1%nat :: seq 2 58.
Proof. reflexivity. Qed.

Lemma valid_stamps_app {A : Type} (sample : nat -> A) (is_valid : A -> bool)
    (l1 l2 : list nat) :
  valid_stamps sample is_valid (l1 ++ l2)
  = valid_stamps sample is_valid l1 ++ valid_stamps sample is_valid l2.
Proof. unfold valid_stamps. apply flat_map_app. Qed.

Lemma valid_stamps_cons {A : Type} (sample : nat -> A) (is_valid : A -> bool)
    (hour : nat) (l : list nat) :
  valid_stamps sample is_valid (hour :: l)
  = map (stamp hour) (valid_minutes sample is_valid hour)
    ++ valid_stamps sample is_valid l.
Proof. reflexivity. Qed.

Lemma valid_among_app {A : Type} (sample : nat -> A) (is_valid : A -> bool)
    (hour : nat) (l1 l2 : list nat) :
  valid_among sample is_valid hour (l1 ++ l2)
  = valid_among sample is_valid hour l1 ++ valid_among sample is_valid hour l2.
Proof. unfold valid_among. apply filter_app. Qed.

Lemma valid_among_cons {A : Type} (sample : nat -> A) (is_valid : A -> bool)
    (hour min : nat) (l : list nat) :
  is_valid (sample (hour * 60 + min)%nat) = true ->
  valid_among sample is_valid hour (min :: l)
  = min :: valid_among sample is_valid hour l.
Proof. intros V. unfold valid_among. cbn [filter]. rewrite V. reflexivity. Qed.

Lemma valid_among_In {A : Type} (sample : nat -> A) (is_valid : A -> bool)
    (hour min : nat) (l : list nat) :
  In min (valid_among sample is_valid hour l) -> In min l.
Proof. unfold valid_among. intros H. apply filter_In in H. apply H. Qed.

Lemma valid_minutes_bound {A : Type} (sample : nat -> A) (is_valid : A -> bool)
    (hour min : nat) :
  In min (valid_minutes sample is_valid hour) -> (min < 60)%nat.
Proof.
  unfold valid_minutes, valid_among. intros H.
  apply filter_In in H. destruct H as [H _]. apply in_seq in H. lia.
Qed.

Lemma minutes_head : seq 0 60 = 0%nat :: seq 1 59.
Proof. reflexivity. Qed.

Lemma valid_stamps_hours {A : Type} (sample : nat -> A) (is_valid : A -> bool)
    (l : list nat) (st : Z * Z) :
  In st (valid_stamps sample is_valid l) ->
  exists hour, In hour l /\ fst st = Z.of_nat hour /\ (0 <= snd st < 60)%Z.
Proof.
  unfold valid_stamps. intros H. apply in_flat_map in H.
  destruct H as (hour & Hh & Hst). apply in_map_iff in Hst.
  destruct Hst as (min & E & Hmin). subst st. exists hour.
  apply valid_minutes_bound in Hmin.
  unfold stamp. cbn [fst snd]. repeat split; [assumption | lia | lia].
Qed.

Lemma hd_app_cons {X : Type} (P : X -> Prop) (l1 l2 : list X) (x d : X) :
  Forall P l1 -> P x -> P (hd d (l1 ++ x :: l2)).
Proof.
  intros H1 Hx. destruct l1 as [| a l1]; [exact Hx |].
  inversion H1; subst. assumption.
Qed.

(** When 12:00 is admitted, the first admitted minute of the day is 12:00
    or earlier. *)
Lemma first_valid_minute_before_noon {A : Type} (sample : nat -> A)
    (is_valid : A -> bool) :
  is_valid (sample (12 * 60 + 0)%nat) = true ->
  (minute_of_day (first_valid_minute sample is_valid) <= 720)%Z.
Proof.
  intros V. unfold first_valid_minute.
  rewrite hours_split, valid_stamps_app, valid_stamps_cons.
  unfold valid_minutes.
  rewrite minutes_head.
  rewrite (valid_among_cons _ _ _ _ _ V), map_cons, <- app_comm_cons.
  apply (hd_app_cons (fun st => (minute_of_day st <= 720)%Z)).
  - apply Forall_forall. intros st Hst.
    apply valid_stamps_hours in Hst. destruct Hst as (hour & Hh & E & Hm).
    apply in_seq in Hh. unfold minute_of_day. lia.
  - unfold minute_of_day, stamp. cbn [fst snd]. lia.
Qed.

(** When 12:01 is admitted, the last admitted minute of the day is 12:01
    or later. *)
Lemma last_valid_minute_after_noon {A : Type} (sample : nat -> A)
    (is_valid : A -> bool) :
  is_valid (sample (12 * 60 + 1)%nat) = true ->
  (721 <= minute_of_day (last_valid_minute sample is_valid))%Z.
Proof.
  intros V. unfold last_valid_minute.
  rewrite hours_split, valid_stamps_app, valid_stamps_cons.
  unfold valid_minutes.
  rewrite minutes_split, valid_among_app, (valid_among_cons _ _ _ _ _ V).
  rewrite map_app, <- !app_assoc, app_assoc, last_app_default.
  rewrite map_cons, <- app_comm_cons.
  apply last_Forall; [discriminate |].
  apply Forall_forall. intros st Hst. unfold minute_of_day.
  apply in_inv in Hst.
  destruct Hst as [Hst | Hst]; [subst st; unfold stamp; cbn [fst snd]; lia |].
  apply in_app_or in Hst. destruct Hst as [Hst | Hst].
  - apply in_map_iff in Hst. destruct Hst as (min & E & Hin). subst st.
    apply valid_among_In, in_seq in Hin. unfold stamp. cbn [fst snd]. lia.
  - apply valid_stamps_hours in Hst. destruct Hst as (hour & Hh & E & Hm).
    apply in_seq in Hh. lia.
Qed.

(** ** A day at the equator

    At latitude 0 and longitude -75 (the meridian of the UTC offset -5) the
    minutes 400 to 1040 of every day are admitted. *)

Lemma INR_between (n lo hi : nat) :
  (lo <= n <= hi)%nat -> IZR (Z.of_nat lo) <= INR n <= IZR (Z.of_nat hi).
Proof.
  intros H. rewrite INR_IZR_INZ. split; apply IZR_le; lia.
Qed.

Lemma equator_minute_valid (day time : nat) :
  (400 <= time <= 1040)%nat ->
  is_valid_angles (angles_at 0 (-75) day time) = true.
Proof.
  intros Ht. pose proof PI_RGT_0 as HPI.
  pose proof (solar_data_of_day_value 0 (-75) day time) as E.
  unfold solar_data_of_day, solar_data in E.
  set (d := declination_angle (INR day) false) in E.
  set (sh := solar_hour_angle (INR time) (INR day) (-75) (-5) false) in E.
  set (e := solar_elevation_angle 0 d sh) in E.
  destruct (solar_azimuth_angle_value 0 d sh e)
    as (az & Eaz & H0 & _ & _ & Hlow & _).
  rewrite Eaz in E. cbn [bind] in E. injection E as E. rewrite <- E.
  unfold is_valid_angles. cbn [e_angle a_angle].
  assert (Hsh : -86 <= deg sh <= 86).
  { unfold sh. rewrite deg_solar_hour_angle.
    pose proof (eot_bound (INR time) (INR day) false).
    pose proof (INR_between time 400 1040 Ht) as B.
    change (IZR (Z.of_nat 400)) with 400 in B.
    change (IZR (Z.of_nat 1040)) with 1040 in B. lra. }
  assert (Hrad : - (PI / 2) <= sh <= PI / 2).
  { rewrite <- (rad_deg sh). unfold rad.
    assert (0 < PI / 180) by lra.
    replace (deg sh * PI / 180) with (deg sh * (PI / 180)) by lra.
    split; nra. }
  assert (Hd : - (PI / 2) <= d <= PI / 2) by apply asin_bound.
  assert (He : 0 <= deg e).
  { assert (He0 : 0 <= e).
    { unfold e, solar_elevation_angle. apply asin_nonneg.
      assert (R0 : rad 0 = 0) by (unfold rad; lra).
      rewrite R0, sin_0, cos_0.
      pose proof (cos_ge_0 d ltac:(lra) ltac:(lra)).
      pose proof (cos_ge_0 sh ltac:(lra) ltac:(lra)).
      nra. }
    apply deg_le in He0. rewrite deg_0 in He0. exact He0. }
  assert (Haz : -180 < deg az < 0).
  { destruct (Req_dec_T (deg sh) 0) as [Z0 | N0].
    - rewrite (H0 Z0). lra.
    - rewrite Hlow by lra. lra. }
  apply andb_true_iff. split; [apply andb_true_iff; split |].
  - apply Rge_b_true. lra.
  - apply Rlt_b_true. lra.
  - apply Rgt_b_true. lra.
Qed.

(** C1, on the code.  On day 0 at latitude 0 and longitude -75 the minute
    12:00 is valid, so the first valid minute of the day is 12:00 or
    earlier, and the last valid minute is 12:01 or later.  The scan ends
    with [has_started] still [False]; its [day_start] is the last valid
    minute of the day, not the first, and its [day_end] is 00:00, not the
    last valid minute. *)
Theorem day_start_is_not_first_valid_minute :
  exists v day_data,
    scan_day (solar_data_of_day 0 (-75) 0) is_valid_angles "01"%string 1%Z
    = Ok (v, day_data)
    /\ has_started v = false
    /\ (day_start_hour v, day_start_min v)
       = last_valid_minute (angles_at 0 (-75) 0) is_valid_angles
    /\ (minute_of_day (first_valid_minute (angles_at 0 (-75) 0) is_valid_angles)
        <= 720)%Z
    /\ (721 <= minute_of_day (day_start_hour v, day_start_min v))%Z
    /\ (day_end_hour v, day_end_min v) = (0, 0)%Z
    /\ (721 <= minute_of_day
                 (last_valid_minute (angles_at 0 (-75) 0) is_valid_angles))%Z.
Proof.
  assert (V0 : is_valid_angles (angles_at 0 (-75) 0 (12 * 60 + 0)) = true)
    by (apply equator_minute_valid; cbn; lia).
  assert (V1 : is_valid_angles (angles_at 0 (-75) 0 (12 * 60 + 1)) = true)
    by (apply equator_minute_valid; cbn; lia).
  pose proof (first_valid_minute_before_noon _ _ V0) as F.
  pose proof (last_valid_minute_after_noon _ _ V1) as L.
  eexists _, _. split.
  - apply (scan_day_value _ (solar_data_of_day 0 (-75) 0)
             (angles_at 0 (-75) 0) is_valid_angles
             (solar_data_of_day_value 0 (-75) 0)).
  - cbn [has_started day_start_hour day_start_min day_end_hour day_end_min].
    rewrite <- surjective_pairing.
    repeat split; assumption.
Qed.

(** * Further properties of the kernel *)

(** X1.  [deg] and [rad] are inverse to each other. *)
Theorem deg_rad_round_trip (x : R) : deg (rad x) = x /\ rad (deg x) = x.
Proof. split; [apply deg_rad | apply rad_deg]. Qed.

Lemma asin_le x y : -1 <= x -> x <= y -> y <= 1 -> asin x <= asin y.
Proof.
  intros Hx Hxy Hy.
  pose proof (asin_bound x) as Bx. pose proof (asin_bound y) as By.
  apply sin_incr_0; try lra.
  rewrite !sin_asin by lra. assumption.
Qed.

Lemma rad_opp x : rad (- x) = - rad x.
Proof. unfold rad. lra. Qed.

(** X2.  The declination stays within the obliquity: it is between
    -23.44 and 23.44 degrees on every day, in both year variants. *)
Theorem declination_angle_bound (day : R) (is_leap_year : bool) :
  - rad 23.44 <= declination_angle day is_leap_year <= rad 23.44.
Proof.
  pose proof PI_RGT_0 as HPI.
  assert (B : - (PI / 2) <= rad 23.44 <= PI / 2) by (unfold rad; lra).
  unfold declination_angle.
  match goal with |- context [cos ?t] => set (theta := t) end.
  assert (E : rad (-23.44) = - rad 23.44) by (unfold rad; lra).
  rewrite E, sin_neg.
  set (s := sin (rad 23.44)).
  assert (Hs : 0 <= s <= 1).
  { unfold s. split; [apply sin_ge_0; unfold rad; lra |].
    apply SIN_bound. }
  pose proof (COS_bound theta) as Hc.
  assert (Harg : - s <= - s * cos theta <= s) by nra.
  assert (A1 : asin s = rad 23.44) by (unfold s; apply asin_sin; lra).
  assert (A2 : asin (- s) = - rad 23.44)
    by (unfold s; rewrite <- sin_neg; apply asin_sin; lra).
  pose proof (asin_le (- s) (- s * cos theta) ltac:(lra) ltac:(lra) ltac:(lra)).
  pose proof (asin_le (- s * cos theta) s ltac:(lra) ltac:(lra) ltac:(lra)).
  lra.
Qed.

(** X3.  The corrected local solar time differs from the clock time
    shifted by four minutes per degree of longitude off the zone meridian
    by the equation of time, which is at most 20.51 minutes. *)
Theorem c_lst_correction_bound (time day longitude tz_offset : R)
    (is_leap_year : bool) :
  Rabs (c_lst time day longitude tz_offset is_leap_year
        - (time + 4 * (longitude - 15 * tz_offset))) <= 20.51.
Proof.
  unfold c_lst, eot.
  set (y := 2 * PI / day_divisor is_leap_year
            * (day - 1 + (time / 60 - 12) / 24)).
  pose proof (COS_bound y). pose proof (SIN_bound y).
  pose proof (COS_bound (2 * y)). pose proof (SIN_bound (2 * y)).
  apply Rabs_le. lra.
Qed.

(** X4.  One degree of longitude to the east advances the hour angle by
    one degree, and one hour of UTC offset more sets it back by fifteen. *)
Theorem solar_hour_angle_shift (time day longitude tz_offset x k : R)
    (is_leap_year : bool) :
  solar_hour_angle time day (longitude + x) tz_offset is_leap_year
  = solar_hour_angle time day longitude tz_offset is_leap_year + rad x
  /\ solar_hour_angle time day longitude (tz_offset + k) is_leap_year
     = solar_hour_angle time day longitude tz_offset is_leap_year
       - rad (15 * k).
Proof. unfold solar_hour_angle, c_lst, rad. split; lra. Qed.

(** X5.  The elevation is the same at opposite hour angles: morning and
    afternoon are symmetric about solar noon. *)
Theorem solar_elevation_angle_even (latitude d_angle sh_angle : R) :
  solar_elevation_angle latitude d_angle (- sh_angle)
  = solar_elevation_angle latitude d_angle sh_angle.
Proof. unfold solar_elevation_angle. rewrite cos_neg. reflexivity. Qed.

Lemma cos_Rabs x : cos (Rabs x) = cos x.
Proof.
  unfold Rabs. destruct (Rcase_abs x); [apply cos_neg | reflexivity].
Qed.

(** X6.  At solar noon (hour angle 0) the elevation is 90 degrees minus
    the distance between the latitude and the declination. *)
Theorem solar_elevation_angle_noon (latitude d_angle : R) :
  Rabs (rad latitude - d_angle) <= PI ->
  solar_elevation_angle latitude d_angle 0
  = PI / 2 - Rabs (rad latitude - d_angle).
Proof.
  intros H. pose proof (Rabs_pos (rad latitude - d_angle)) as P.
  unfold solar_elevation_angle. rewrite cos_0.
  replace (sin (rad latitude) * sin d_angle
           + cos (rad latitude) * cos d_angle * 1)
    with (cos (rad latitude - d_angle)) by (rewrite cos_minus; ring).
  rewrite <- cos_Rabs, <- sin_shift.
  apply asin_sin. lra.
Qed.

Lemma solar_elevation_angle_noon_witness :
  solar_elevation_angle 0 0 0 = PI / 2 - Rabs (rad 0 - 0).
Proof.
  apply solar_elevation_angle_noon.
  assert (E : rad 0 - 0 = 0) by (unfold rad; lra).
  rewrite E, Rabs_R0. pose proof PI_RGT_0. lra.
Defined.

(** X7.  The azimuth is a function of the hour angle alone: the angle that
    is computed with [acos] from the latitude, the declination and the
    elevation is never used. *)
Theorem solar_azimuth_angle_ignores_geometry
    (latitude d_angle e_angle latitude' d_angle' e_angle' sh_angle : R) :
  solar_azimuth_angle latitude d_angle sh_angle e_angle
  = solar_azimuth_angle latitude' d_angle' sh_angle e_angle'.
Proof. unfold solar_azimuth_angle. reflexivity. Qed.

(** X8.  A minute is admitted exactly when the elevation is not negative
    and the hour angle is strictly between -90 and 90 degrees or strictly
    between 270 and 450 degrees. *)
Theorem admitted_minute (latitude longitude day time tz_offset : R)
    (is_leap_year : bool) :
  exists data,
    solar_data latitude longitude day time tz_offset is_leap_year = Ok data
    /\ (is_valid_angles data = true
        <-> 0 <= e_angle data
            /\ let h := deg (solar_hour_angle time day longitude tz_offset
                               is_leap_year) in
               -90 < h < 90 \/ 270 < h < 450).
Proof.
  unfold solar_data.
  set (d := declination_angle day is_leap_year).
  set (sh := solar_hour_angle time day longitude tz_offset is_leap_year).
  set (e := solar_elevation_angle latitude d sh).
  destruct (solar_azimuth_angle_value latitude d sh e)
    as (az & E & H0 & Hm & Hp & Hlow & Hhigh).
  exists (mkAngles e az). rewrite E. cbn [bind]. split; [reflexivity |].
  unfold is_valid_angles. cbn [e_angle a_angle]. cbv zeta.
  rewrite !andb_true_iff, Rge_b_true, Rlt_b_true, Rgt_b_true.
  assert (He : deg e >= 0 <-> 0 <= e).
  { rewrite (deg_le 0 e), deg_0. split; lra. }
  rewrite He.
  assert (Haz : deg az < 0 /\ deg az > -180
                <-> -90 < deg sh < 90 \/ 270 < deg sh < 450).
  { destruct (Req_dec_T (deg sh) 0) as [E0 | N0]; [rewrite (H0 E0); lra |].
    destruct (Req_dec_T (deg sh) (-90)) as [Em | Nm]; [rewrite (Hm Em); lra |].
    destruct (Req_dec_T (deg sh) 90) as [Ep | Np]; [rewrite (Hp Ep); lra |].
    destruct (Rlt_dec (deg sh) 90) as [L | L].
    - rewrite (Hlow L N0 Nm). lra.
    - rewrite Hhigh by lra. lra. }
  tauto.
Qed.

(** X9.  For an azimuth with a nonzero cosine the whole solar vector, not
    only its x-component, is a function of the elevation:
    [(|sin e|, - cos e, sin e) / sqrt (1 + sin^2 e)]. *)
Theorem get_solar_vector_closed_form (e_angle a_angle : R) :
  cos a_angle <> 0 ->
  let n := sqrt (1 + (sin e_angle)^2) in
  get_solar_vector e_angle a_angle
  = Ok (Rabs (sin e_angle) / n, - cos e_angle / n, sin e_angle / n).
Proof.
  intros H n.
  assert (P : 0 < 1 + (sin e_angle)^2)
    by (pose proof (pow2_ge_0 (sin e_angle)); lra).
  assert (Pn : 0 < n) by (apply sqrt_lt_R0; assumption).
  rewrite get_solar_vector_value, vector_ratio_value by assumption.
  assert (E1 : sqrt ((sin e_angle)^2 / (1 + (sin e_angle)^2))
               = Rabs (sin e_angle) / n).
  { rewrite sqrt_div_alt by assumption.
    assert (S : sqrt ((sin e_angle)^2) = Rabs (sin e_angle)).
    { replace ((sin e_angle)^2) with (Rsqr (sin e_angle))
        by (unfold Rsqr; ring).
      apply sqrt_Rsqr_abs. }
    rewrite S. reflexivity. }
  assert (E2 : sqrt (1 - (sin e_angle)^2 / (1 + (sin e_angle)^2)) = 1 / n).
  { replace (1 - (sin e_angle)^2 / (1 + (sin e_angle)^2))
      with (1 / (1 + (sin e_angle)^2)) by (field; lra).
    rewrite sqrt_div_alt by assumption. rewrite sqrt_1. reflexivity. }
  rewrite E1, E2.
  replace (- cos e_angle * (1 / n)) with (- cos e_angle / n) by (field; lra).
  replace (sin e_angle * (1 / n)) with (sin e_angle / n) by (field; lra).
  reflexivity.
Qed.

Lemma get_solar_vector_closed_form_witness :
  get_solar_vector 0 0
  = Ok (Rabs (sin 0) / sqrt (1 + (sin 0)^2),
        - cos 0 / sqrt (1 + (sin 0)^2),
        sin 0 / sqrt (1 + (sin 0)^2)).
Proof.
  apply (get_solar_vector_closed_form 0 0). rewrite cos_0. lra.
Defined.

(** ** Further properties of the efficiency coefficient *)

(** X10.  The coefficient does not depend on the order of the two
    vectors. *)
Theorem get_efficiency_coefficient_symmetric (a b : vec3) :
  get_efficiency_coefficient a b = get_efficiency_coefficient b a.
Proof.
  destruct a as [[xa ya] za], b as [[xb yb] zb].
  unfold get_efficiency_coefficient. rewrite !cos_between_value.
  cbn [bind].
  replace ((xb * xa + yb * ya + zb * za)
           / (sqrt (xb^2 + yb^2 + zb^2) * sqrt (xa^2 + ya^2 + za^2)))
    with ((xa * xb + ya * yb + za * zb)
          / (sqrt (xa^2 + ya^2 + za^2) * sqrt (xb^2 + yb^2 + zb^2))).
  - reflexivity.
  - rewrite (Rmult_comm (sqrt (xb^2 + yb^2 + zb^2))). f_equal. ring.
Qed.

(** X12.  The lower-bound error is never raised: [acos] has no negative
    value. *)
Theorem get_efficiency_coefficient_no_lower_error (a b : vec3) :
  get_efficiency_coefficient a b <> Raise Out_of_lower_bounds.
Proof.
  unfold get_efficiency_coefficient.
  destruct (cos_between a b) as [q | e] eqn:E; cbn [bind].
  - pose proof (acos_bound q) as [B _]. pose proof PI_RGT_0.
    apply deg_le in B. rewrite deg_0 in B.
    cmp; try discriminate. lra.
  - destruct a as [[xa ya] za], b as [[xb yb] zb].
    rewrite cos_between_value in E. discriminate.
Qed.

(** * Further properties of the generator *)

(** X15.  The two month tables are the calendars of a regular and of a
    leap year: the dates of the days 0 to 364 (0 to 365) are the days 1 to
    the length of each month, month after month, with 28 (29) days in
    February. *)
Theorem month_tables_are_calendars :
  map (day_label month_regular) (seq 0 365) = calendar (month_lengths 28)
  /\ map (day_label month_leap) (seq 0 366) = calendar (month_lengths 29).
Proof. split; vm_compute; reflexivity. Qed.

Lemma month_regular_dates :
  map (day_label month_regular) (seq 0 365) = calendar (month_lengths 28).
Proof. vm_compute. reflexivity. Qed.

Lemma month_leap_dates :
  map (day_label month_leap) (seq 0 366) = calendar (month_lengths 29).
Proof. vm_compute. reflexivity. Qed.

(** ** The records of a day and of a year, for any panel normals *)

Lemma mapM_Forall2 {A B : Type} (f : A -> result B) (l : list A) (bs : list B) :
  mapM f l = Ok bs <-> Forall2 (fun a b => f a = Ok b) l bs.
Proof.
  revert bs. induction l as [| a l IH]; intros bs; cbn [mapM]; split.
  - intros E. injection E as <-. constructor.
  - intros H. inversion H. reflexivity.
  - destruct (f a) as [b |] eqn:Ea; cbn [bind]; [| discriminate].
    destruct (mapM f l) as [bs' |] eqn:El; cbn [bind]; [| discriminate].
    intros E. injection E as <-. constructor; [assumption |].
    apply IH. reflexivity.
  - intros H. inversion H as [| ? b ? bs' Ha Hl]; subst.
    rewrite Ha. cbn [bind]. apply IH in Hl. rewrite Hl. reflexivity.
Qed.

Lemma mapM_map {A B C : Type} (h : A -> B) (f : B -> result C) (l : list A) :
  mapM f (map h l) = mapM (fun a => f (h a)) l.
Proof.
  induction l as [| a l IH]; cbn [map mapM]; [reflexivity |].
  rewrite IH. reflexivity.
Qed.

Lemma mapM_length {A B : Type} (f : A -> result B) (l : list A) (bs : list B) :
  mapM f l = Ok bs -> length bs = length l.
Proof.
  intros H. apply mapM_Forall2 in H.
  induction H; cbn [length]; [reflexivity | f_equal; assumption].
Qed.

Lemma efficiency_pass_fields winter summer w hour_data r :
  efficiency_pass winter summer w hour_data = Ok r ->
  month r = hd_month hour_data /\ day r = hd_day hour_data
  /\ hour r = hd_hour hour_data
  /\ hr_start_time r = start_time hour_data
  /\ hr_end_time r = end_time hour_data
  /\ length (efficiency_data r) = length (angle_data hour_data).
Proof.
  unfold efficiency_pass.
  destruct (mapM _ (angle_data hour_data)) as [cs |] eqn:E; cbn [bind];
    [| discriminate].
  intros H. injection H as <-.
  cbn [month day hour hr_start_time hr_end_time efficiency_data].
  repeat split. apply (mapM_length _ _ _ E).
Qed.

Lemma valid_minutes_length {A : Type} (sample : nat -> A) (is_valid : A -> bool)
    (hour : nat) :
  (length (valid_minutes sample is_valid hour) <= 60)%nat.
Proof.
  unfold valid_minutes, valid_among.
  eapply Nat.le_trans; [apply filter_length_le |].
  rewrite length_seq. apply Nat.le_refl.
Qed.

Lemma scanned_hour_fields {A : Type} (sample : nat -> A) (is_valid : A -> bool)
    (month : string) (dm : Z) (h : nat) :
  hd_month (scanned_hour sample is_valid month dm h) = month
  /\ hd_day (scanned_hour sample is_valid month dm h) = dm
  /\ hd_hour (scanned_hour sample is_valid month dm h) = h
  /\ end_time (scanned_hour sample is_valid month dm h) = None
  /\ (length (angle_data (scanned_hour sample is_valid month dm h)) <= 60)%nat.
Proof.
  unfold scanned_hour. cbn [hd_month hd_day hd_hour end_time angle_data].
  repeat split. rewrite length_map. apply valid_minutes_length.
Qed.

(** The records that the efficiency pass makes of the scanned hours
    [hours] of a day. *)
Lemma scanned_records winter summer w (sample : nat -> SolarAngles) month dm
    (hours : list nat) (records : list HourRecord) :
  Forall2 (fun h r =>
             efficiency_pass winter summer w
               (scanned_hour sample is_valid_angles month dm h) = Ok r)
          hours records ->
  map record_key records = map (fun h => (month, dm, h)) hours
  /\ Forall (fun r => hr_end_time r = None
                      /\ (length (efficiency_data r) <= 60)%nat) records.
Proof.
  induction 1 as [| h r hours records Hr _ [IH1 IH2]]; cbn [map].
  - split; [reflexivity | constructor].
  - apply efficiency_pass_fields in Hr.
    destruct Hr as (Em & Ed & Eh & _ & Ee & El).
    destruct (scanned_hour_fields sample is_valid_angles month dm h)
      as (Fm & Fd & Fh & Fe & Fl).
    rewrite Fm in Em. rewrite Fd in Ed. rewrite Fh in Eh. rewrite Fe in Ee.
    rewrite <- El in Fl.
    split.
    + unfold record_key at 1. rewrite Em, Ed, Eh, IH1. reflexivity.
    + constructor; [| assumption]. split; assumption.
Qed.

(** One day of the loop, for any panel normals and month table. *)
Lemma day_step_spec lat long winter summer month_table w data d w' data' :
  day_step lat long winter summer month_table (w, data) d = Ok (w', data')
  <-> exists records,
        w' = toggle w
               (day_hr (mkDayVars false
                          (fst (last_valid_minute (angles_at lat long d)
                                  is_valid_angles))
                          (snd (last_valid_minute (angles_at lat long d)
                                  is_valid_angles)) 0 0))
        /\ data' = data ++ records
        /\ Forall2 (fun h r =>
                      efficiency_pass winter summer w'
                        (scanned_hour (angles_at lat long d) is_valid_angles
                           (fst (month_table d))
                           (Z.of_nat d - snd (month_table d))%Z h) = Ok r)
                   (seq 5 17) records.
Proof.
  unfold day_step. destruct (month_table d) as [m sub]. cbn [fst snd].
  rewrite (scan_day_value _ (solar_data_of_day lat long d)
             (angles_at lat long d) is_valid_angles
             (solar_data_of_day_value lat long d)).
  cbn zeta. cbn [bind]. rewrite mapM_map.
  split.
  - destruct (mapM _ (seq 5 17)) as [records |] eqn:E; cbn [bind];
      [| discriminate].
    intros H. injection H as <- <-. exists records.
    split; [reflexivity |]. split; [reflexivity |].
    apply mapM_Forall2. exact E.
  - intros (records & -> & -> & F). apply mapM_Forall2 in F.
    rewrite F. reflexivity.
Qed.

Lemma year_state_S lat long winter summer month_table n :
  year_state lat long winter summer month_table (S n)
  = let* s := year_state lat long winter summer month_table n in
    day_step lat long winter summer month_table s n.
Proof.
  unfold year_state. rewrite seq_S, foldM_app.
  destruct (foldM _ (seq 0 n) (true, [])) as [s |]; [| reflexivity].
  cbn [bind foldM]. change (0 + n)%nat with n.
  destruct (day_step _ _ _ _ _ s n); reflexivity.
Qed.

Lemma flat_map_snoc {A B : Type} (f : A -> list B) (l : list A) (a : A) :
  flat_map f (l ++ [a]) = flat_map f l ++ f a.
Proof. rewrite flat_map_app. cbn [flat_map]. rewrite app_nil_r. reflexivity. Qed.

(** The keys of the records after [n] days, and what every record
    satisfies. *)
Lemma year_state_keys lat long winter summer month_table n w data :
  year_state lat long winter summer month_table n = Ok (w, data) ->
  map record_key data
  = flat_map (fun d => map (fun h => (day_label month_table d, h)) (seq 5 17))
             (seq 0 n)
  /\ Forall (fun r => hr_end_time r = None
                      /\ (length (efficiency_data r) <= 60)%nat) data.
Proof.
  revert w data. induction n as [| n IH]; intros w data H.
  - injection H as <- <-. split; [reflexivity | constructor].
  - rewrite year_state_S in H.
    destruct (year_state lat long winter summer month_table n)
      as [[w0 data0] |]; [| discriminate].
    cbn [bind] in H. apply day_step_spec in H.
    destruct H as (records & _ & -> & F).
    apply scanned_records in F. destruct F as [F1 F2].
    destruct (IH w0 data0 eq_refl) as [IH1 IH2].
    split.
    + rewrite map_app, IH1, F1, (seq_S n 0), flat_map_snoc. reflexivity.
    + apply Forall_app. split; assumption.
Qed.

Lemma flat_map_map {A B C : Type} (g : A -> B) (f : B -> list C) (l : list A) :
  flat_map f (map g l) = flat_map (fun a => f (g a)) l.
Proof.
  induction l as [| a l IH]; cbn [map flat_map]; [reflexivity |].
  rewrite IH. reflexivity.
Qed.

Lemma NoDup_flat_map_tagged {T X Y0 Y : Type} (tag : T -> X) (g : Y0 -> Y)
    (items : T -> list Y0) (l : list T) :
  (forall y y', g y = g y' -> y = y') ->
  NoDup (map tag l) ->
  (forall t, In t l -> NoDup (items t)) ->
  NoDup (flat_map (fun t => map (fun y => (tag t, g y)) (items t)) l).
Proof.
  intros Hg. induction l as [| t l IH]; intros Ht Hi; cbn [flat_map].
  - constructor.
  - cbn [map] in Ht. apply NoDup_cons_iff in Ht. destruct Ht as [Hnt Ht].
    apply NoDup_app.
    + assert (N : NoDup (items t)) by (apply Hi; left; reflexivity).
      induction N as [| y ys Hy _ IHN]; cbn [map]; constructor.
      * intros Hin. apply in_map_iff in Hin.
        destruct Hin as (y' & E & Hy'). injection E as E.
        apply Hg in E. subst y'. contradiction.
      * assumption.
    + apply IH; [assumption |]. intros t' Ht'. apply Hi. right. assumption.
    + intros x Hx Hx'. apply in_map_iff in Hx. destruct Hx as (y & <- & _).
      apply in_flat_map in Hx'. destruct Hx' as (t' & Ht' & Hx').
      apply in_map_iff in Hx'. destruct Hx' as (y' & E & _).
      injection E as E _. apply Hnt. rewrite <- E.
      apply in_map. assumption.
Qed.

Lemma month_names_NoDup february : NoDup (map fst (month_lengths february)).
Proof.
  cbn [month_lengths map fst].
  repeat (constructor; [cbn [In]; intuition discriminate |]).
  constructor.
Qed.

Lemma calendar_NoDup february : NoDup (calendar (month_lengths february)).
Proof.
  unfold calendar.
  apply (NoDup_flat_map_tagged fst Z.of_nat (fun m => seq 1 (snd m))).
  - intros y y' E. apply Nat2Z.inj. assumption.
  - apply month_names_NoDup.
  - intros t _. apply seq_NoDup.
Qed.

Lemma keys_NoDup (dates : list (string * Z)) :
  NoDup dates ->
  NoDup (flat_map (fun date => map (fun h : nat => (date, h)) (seq 5 17)) dates).
Proof.
  intros H.
  apply (NoDup_flat_map_tagged (fun date : string * Z => date)
           (fun h : nat => h) (fun _ => seq 5 17)).
  - intros y y' E. assumption.
  - rewrite map_id. assumption.
  - intros t _. apply seq_NoDup.
Qed.

Lemma fetch_solar_data_keys (lat long : R) :
  exists regular_data leap_year_data,
    fetch_solar_data lat long = Ok (regular_data, leap_year_data)
    /\ map record_key regular_data
       = flat_map (fun date => map (fun h => (date, h)) (seq 5 17))
                  (calendar (month_lengths 28))
    /\ map record_key leap_year_data
       = flat_map (fun date => map (fun h => (date, h)) (seq 5 17))
                  (calendar (month_lengths 29))
    /\ NoDup (map record_key regular_data)
    /\ NoDup (map record_key leap_year_data).
Proof.
  destruct (year_state_45 lat long month_regular 365) as (w1 & d1 & E1 & _).
  destruct (year_state_45 lat long month_leap 366) as (w2 & d2 & E2 & _).
  exists d1, d2. unfold fetch_solar_data, year_data.
  rewrite E1, E2. cbn [bind snd]. split; [reflexivity |].
  apply year_state_keys in E1. destruct E1 as [K1 _].
  apply year_state_keys in E2. destruct E2 as [K2 _].
  rewrite <- (flat_map_map (day_label month_regular)
                (fun date => map (fun h => (date, h)) (seq 5 17))) in K1.
  rewrite <- (flat_map_map (day_label month_leap)
                (fun date => map (fun h => (date, h)) (seq 5 17))) in K2.
  rewrite month_regular_dates in K1. rewrite month_leap_dates in K2.
  rewrite K1, K2. repeat split.
  - apply keys_NoDup, calendar_NoDup.
  - apply keys_NoDup, calendar_NoDup.
Qed.

(** X16.  The keys [(month, day, hour)] of the two profiles are the dates
    of the calendar of the year, each with the hours 5 to 21, in order;
    no key occurs twice in a profile. *)
Theorem record_keys (lat long : R) :
  exists regular_data leap_year_data,
    fetch_solar_data lat long = Ok (regular_data, leap_year_data)
    /\ map record_key regular_data
       = flat_map (fun date => map (fun h => (date, h)) (seq 5 17))
                  (calendar (month_lengths 28))
    /\ map record_key leap_year_data
       = flat_map (fun date => map (fun h => (date, h)) (seq 5 17))
                  (calendar (month_lengths 29))
    /\ NoDup (map record_key regular_data)
    /\ NoDup (map record_key leap_year_data).
Proof.
  destruct (year_state_45 lat long month_regular 365) as (w1 & d1 & E1 & _).
  destruct (year_state_45 lat long month_leap 366) as (w2 & d2 & E2 & _).
  exists d1, d2. unfold fetch_solar_data, year_data.
  rewrite E1, E2. cbn [bind snd]. split; [reflexivity |].
  apply year_state_keys in E1. destruct E1 as [K1 _].
  apply year_state_keys in E2. destruct E2 as [K2 _].
  rewrite <- (flat_map_map (day_label month_regular)
                (fun date => map (fun h => (date, h)) (seq 5 17))) in K1.
  rewrite <- (flat_map_map (day_label month_leap)
                (fun date => map (fun h => (date, h)) (seq 5 17))) in K2.
  rewrite month_regular_dates in K1. rewrite month_leap_dates in K2.
  rewrite K1, K2. repeat split.
  - apply keys_NoDup, calendar_NoDup.
  - apply keys_NoDup, calendar_NoDup.
Qed.

(** X17.  No record carries an end time, and no record has more than 60
    coefficients. *)
Theorem records_have_no_end_time (lat long : R) :
  exists regular_data leap_year_data,
    fetch_solar_data lat long = Ok (regular_data, leap_year_data)
    /\ Forall (fun r => hr_end_time r = None
                        /\ (length (efficiency_data r) <= 60)%nat)
         (regular_data ++ leap_year_data).
Proof.
  destruct (year_state_45 lat long month_regular 365) as (w1 & d1 & E1 & _).
  destruct (year_state_45 lat long month_leap 366) as (w2 & d2 & E2 & _).
  exists d1, d2. unfold fetch_solar_data, year_data.
  rewrite E1, E2. cbn [bind snd]. split; [reflexivity |].
  apply year_state_keys in E1. apply year_state_keys in E2.
  apply Forall_app. split; [apply E1 | apply E2].
Qed.

(** ** When the flag flips *)

Lemma day_hr_of_scan (start : Z * Z) :
  (5 <= fst start <= 21)%Z -> (0 <= snd start < 60)%Z ->
  (day_hr (mkDayVars false (fst start) (snd start) 0 0) < 12)%Z.
Proof.
  intros Hh Hm. unfold day_hr, daylight.
  cbn [day_start_hour day_start_min day_end_hour day_end_min].
  destruct (snd start >? 0)%Z eqn:G.
  - destruct (60 - snd start + 0 >? 60)%Z eqn:C; cbn [fst]; lia.
  - destruct (0 + 0 >? 60)%Z eqn:C; cbn [fst]; lia.
Qed.

Lemma day_hr_of_dark_day : day_hr (mkDayVars false 0 0 0 0) = 12%Z.
Proof. reflexivity. Qed.

Lemma last_valid_minute_range {A : Type} (sample : nat -> A)
    (is_valid : A -> bool) :
  valid_stamps sample is_valid (seq 5 17) <> [] ->
  (5 <= fst (last_valid_minute sample is_valid) <= 21)%Z
  /\ (0 <= snd (last_valid_minute sample is_valid) < 60)%Z.
Proof.
  intros Hne. unfold last_valid_minute.
  apply (last_Forall
           (fun st => (5 <= fst st <= 21)%Z /\ (0 <= snd st < 60)%Z));
    [assumption |].
  apply Forall_forall. intros st Hst.
  apply valid_stamps_hours in Hst. destruct Hst as (h & Hh & E & Hm).
  apply in_seq in Hh. split; lia.
Qed.

Lemma last_valid_minute_dark {A : Type} (sample : nat -> A)
    (is_valid : A -> bool) :
  valid_stamps sample is_valid (seq 5 17) = [] ->
  last_valid_minute sample is_valid = (0, 0)%Z.
Proof. intros E. unfold last_valid_minute. rewrite E. reflexivity. Qed.

(** X18.  When [solar_data] returns at every minute, the [day_hr] of the
    scan is 12, and so the flag flips, exactly on the days on which no
    minute of the hours 5 to 21 is admitted. *)
Theorem flag_flips_on_dark_days {A : Type} (solar_data_at : nat -> result A)
    (sample : nat -> A) (is_valid : A -> bool) (month : string) (dm : Z) :
  (forall time, solar_data_at time = Ok (sample time)) ->
  exists v day_data,
    scan_day solar_data_at is_valid month dm = Ok (v, day_data)
    /\ (day_hr v = 12%Z <-> valid_stamps sample is_valid (seq 5 17) = [])
    /\ (forall w, toggle w (day_hr v) = negb w
                  <-> valid_stamps sample is_valid (seq 5 17) = []).
Proof.
  intros H. rewrite (scan_day_value _ solar_data_at sample is_valid H).
  cbn zeta. eexists _, _. split; [reflexivity |].
  assert (I : day_hr (mkDayVars false
                        (fst (last_valid_minute sample is_valid))
                        (snd (last_valid_minute sample is_valid)) 0 0) = 12%Z
              <-> valid_stamps sample is_valid (seq 5 17) = []).
  { split.
    - intros E.
      destruct (valid_stamps sample is_valid (seq 5 17)) as [| st l] eqn:S;
        [reflexivity | exfalso].
      assert (Hne : valid_stamps sample is_valid (seq 5 17) <> [])
        by (rewrite S; discriminate).
      destruct (last_valid_minute_range sample is_valid Hne) as [Hh Hm].
      pose proof (day_hr_of_scan _ Hh Hm). lia.
    - intros E. rewrite (last_valid_minute_dark _ _ E). reflexivity. }
  split; [exact I |].
  intros w. rewrite <- I, toggle_xorb.
  destruct (Z.eqb_spec
              (day_hr (mkDayVars false
                         (fst (last_valid_minute sample is_valid))
                         (snd (last_valid_minute sample is_valid)) 0 0))
              12%Z) as [E | N];
    destruct w; cbn [xorb negb]; split; intros; congruence.
Qed.

Lemma flag_flips_on_dark_days_witness :
  exists v day_data,
    scan_day table_0720_1640 (fun up => up) "01"%string 1%Z = Ok (v, day_data)
    /\ (day_hr v = 12%Z
        <-> valid_stamps up_0720_1640 (fun up => up) (seq 5 17) = [])
    /\ (forall w, toggle w (day_hr v) = negb w
                  <-> valid_stamps up_0720_1640 (fun up => up) (seq 5 17) = []).
Proof.
  apply (flag_flips_on_dark_days table_0720_1640 up_0720_1640 (fun up => up)).
  intros time. reflexivity.
Defined.

Lemma noon_stamp {A : Type} (sample : nat -> A) (is_valid : A -> bool) :
  is_valid (sample (12 * 60 + 0)%nat) = true ->
  valid_stamps sample is_valid (seq 5 17) <> [].
Proof.
  intros V. rewrite hours_split, valid_stamps_app, valid_stamps_cons.
  unfold valid_minutes.
  rewrite minutes_head, (valid_among_cons _ _ _ _ _ V), map_cons.
  rewrite <- app_comm_cons. intros E. apply app_eq_nil in E.
  destruct E as [_ E]. discriminate.
Qed.

(** X19.  As long as every day has an admitted minute the flag stays on
    winter: it is still [True] after the first [n] days. *)
Theorem flag_stays_winter (lat long : R) (month_table : nat -> string * Z)
    (n : nat) :
  (forall d, (d < n)%nat ->
             valid_stamps (angles_at lat long d) is_valid_angles (seq 5 17)
             <> []) ->
  exists data,
    year_state lat long winter_panel_normal summer_panel_normal month_table n
    = Ok (true, data).
Proof.
  induction n as [| n IH]; intros H.
  - exists []. reflexivity.
  - destruct IH as (data & E); [intros d Hd; apply H; lia |].
    rewrite year_state_S, E. cbn [bind].
    destruct (day_step_45 lat long month_table true data n)
      as (w' & records & E' & _).
    rewrite E'. pose proof E' as S. apply day_step_spec in S.
    destruct S as (records' & Ew & _).
    assert (Hn : valid_stamps (angles_at lat long n) is_valid_angles (seq 5 17)
                 <> []) by (apply H; lia).
    destruct (last_valid_minute_range _ _ Hn) as [Hh Hm].
    pose proof (day_hr_of_scan _ Hh Hm) as Hlt.
    rewrite toggle_xorb in Ew.
    destruct (Z.eqb_spec
                (day_hr (mkDayVars false
                           (fst (last_valid_minute (angles_at lat long n)
                                   is_valid_angles))
                           (snd (last_valid_minute (angles_at lat long n)
                                   is_valid_angles)) 0 0))
                12%Z) as [E12 | N12]; [lia |].
    cbn [xorb] in Ew. subst w'. eexists. reflexivity.
Qed.

Lemma flag_stays_winter_witness :
  exists data,
    year_state 0 (-75) winter_panel_normal summer_panel_normal
      month_regular 365
    = Ok (true, data).
Proof.
  apply (flag_stays_winter 0 (-75) month_regular 365).
  intros d _. apply noon_stamp. apply equator_minute_valid. lia.
Defined.

(** X20.  The [day_hr]/[day_min] arithmetic keeps the minutes: for minutes
    in 0..59 the result counts the minutes from the start to the end of the
    day plus twelve hours, and [day_min] is between 0 and 60; the carry
    test is [> 60], so a [day_min] of exactly 60 is not carried. *)
Theorem daylight_minutes (v : DayVars) :
  (0 <= day_start_min v < 60)%Z -> (0 <= day_end_min v < 60)%Z ->
  (60 * fst (daylight v) + snd (daylight v)
   = 60 * (12 + day_end_hour v - day_start_hour v)
     + day_end_min v - day_start_min v)%Z
  /\ (0 <= snd (daylight v) <= 60)%Z
  /\ (snd (daylight v) = 60%Z
      <-> (0 < day_start_min v)%Z /\ day_end_min v = day_start_min v).
Proof.
  intros Hs He. unfold daylight.
  destruct (day_start_min v >? 0)%Z eqn:G.
  - destruct (60 - day_start_min v + day_end_min v >? 60)%Z eqn:C;
      cbn [fst snd]; lia.
  - destruct (0 + day_end_min v >? 60)%Z eqn:C; cbn [fst snd]; lia.
Qed.

Lemma daylight_minutes_witness :
  daylight (mkDayVars false 7 30 17 30) = (21, 60)%Z
  /\ (0 <= snd (daylight (mkDayVars false 7 30 17 30)) <= 60)%Z.
Proof.
  pose proof (daylight_minutes (mkDayVars false 7 30 17 30)) as H.
  cbn [day_start_min day_end_min] in H.
  destruct (H ltac:(lia) ltac:(lia)) as (_ & B & _).
  split; [reflexivity | exact B].
Defined.

(** ** The leap profile against the regular one *)

Lemma scanned_hour_relabel {A : Type} (sample : nat -> A) (is_valid : A -> bool)
    (m1 m2 : string) (d1 d2 : Z) (h : nat) :
  hd_hour (scanned_hour sample is_valid m1 d1 h)
  = hd_hour (scanned_hour sample is_valid m2 d2 h)
  /\ angle_data (scanned_hour sample is_valid m1 d1 h)
     = angle_data (scanned_hour sample is_valid m2 d2 h)
  /\ start_time (scanned_hour sample is_valid m1 d1 h)
     = start_time (scanned_hour sample is_valid m2 d2 h)
  /\ end_time (scanned_hour sample is_valid m1 d1 h)
     = end_time (scanned_hour sample is_valid m2 d2 h).
Proof.
  unfold scanned_hour. cbn [hd_hour angle_data start_time end_time].
  repeat split.
Qed.

Lemma efficiency_pass_relabel winter summer w
    (hd1 hd2 : HourData SolarAngles) (r1 : HourRecord) :
  hd_hour hd1 = hd_hour hd2 -> angle_data hd1 = angle_data hd2 ->
  start_time hd1 = start_time hd2 -> end_time hd1 = end_time hd2 ->
  efficiency_pass winter summer w hd1 = Ok r1 ->
  exists r2,
    efficiency_pass winter summer w hd2 = Ok r2
    /\ unlabelled r2 = unlabelled r1.
Proof.
  intros Eh Ea Es Ee. unfold efficiency_pass. rewrite Ea, Eh, Es, Ee.
  destruct (mapM _ (angle_data hd2)) as [cs |]; cbn [bind]; [| discriminate].
  intros H. injection H as <-. eexists. split; reflexivity.
Qed.

Lemma day_records_relabel winter summer w (sample : nat -> SolarAngles)
    (m1 m2 : string) (d1 d2 : Z) (hours : list nat)
    (records1 : list HourRecord) :
  Forall2 (fun h r =>
             efficiency_pass winter summer w
               (scanned_hour sample is_valid_angles m1 d1 h) = Ok r)
          hours records1 ->
  exists records2,
    Forall2 (fun h r =>
               efficiency_pass winter summer w
                 (scanned_hour sample is_valid_angles m2 d2 h) = Ok r)
            hours records2
    /\ map unlabelled records2 = map unlabelled records1.
Proof.
  induction 1 as [| h r1 hours records1 Hr _ (records2 & F & E)].
  - exists []. split; [constructor | reflexivity].
  - destruct (scanned_hour_relabel sample is_valid_angles m1 m2 d1 d2 h)
      as (Eh & Ea & Es & Ee).
    destruct (efficiency_pass_relabel _ _ _ _ _ _ Eh Ea Es Ee Hr)
      as (r2 & Hr2 & Eu).
    exists (r2 :: records2). split; [constructor; assumption |].
    cbn [map]. rewrite Eu, E. reflexivity.
Qed.

(** The month table only labels the records: with another table the loop
    reaches the same flag and the same records up to their dates. *)
Lemma year_state_relabel lat long winter summer table1 table2 n w data1 :
  year_state lat long winter summer table1 n = Ok (w, data1) ->
  exists data2,
    year_state lat long winter summer table2 n = Ok (w, data2)
    /\ map unlabelled data2 = map unlabelled data1.
Proof.
  revert w data1. induction n as [| n IH]; intros w data1 H.
  - injection H as <- <-. exists []. split; reflexivity.
  - rewrite year_state_S in H.
    destruct (year_state lat long winter summer table1 n)
      as [[w0 data0] |]; [| discriminate].
    cbn [bind] in H. apply day_step_spec in H.
    destruct H as (records1 & Ew & -> & F).
    destruct (IH w0 data0 eq_refl) as (data2 & E2 & U2).
    destruct (day_records_relabel _ _ _ _ _
                (fst (table2 n)) _ (Z.of_nat n - snd (table2 n))%Z _ _ F)
      as (records2 & F2 & U).
    exists (data2 ++ records2). split.
    + rewrite year_state_S, E2. cbn [bind]. apply day_step_spec.
      exists records2. repeat split; assumption.
    + rewrite !map_app, U2, U. reflexivity.
Qed.

(** X21.  The leap-year loop never passes [is_leap_year] to [solar_data],
    so its first 365 days repeat the regular profile: up to the dates of
    the records, the leap profile is the regular profile followed by the
    17 records of day 365. *)
Theorem leap_profile_extends_regular (lat long : R) :
  exists regular_data leap_year_data last_day,
    fetch_solar_data lat long = Ok (regular_data, leap_year_data)
    /\ map unlabelled leap_year_data
       = map unlabelled regular_data ++ map unlabelled last_day
    /\ length last_day = 17%nat.
Proof.
  destruct (year_state_45 lat long month_regular 365) as (w1 & d1 & E1 & _).
  destruct (year_state_45 lat long month_leap 366) as (w2 & d2 & E2 & _).
  destruct (year_state_relabel _ _ _ _ _ month_leap _ _ _ E1)
    as (d1' & E1' & U).
  pose proof E2 as S. rewrite year_state_S, E1' in S. cbn [bind] in S.
  apply day_step_spec in S. destruct S as (last_day & _ & -> & F).
  exists d1, (d1' ++ last_day), last_day.
  unfold fetch_solar_data, year_data. rewrite E1, E2. cbn [bind snd].
  split; [reflexivity |]. split.
  - rewrite map_app, U. reflexivity.
  - apply Forall2_length in F. rewrite <- F. apply length_seq.
Qed.

(** * Further properties of the hourly production *)

(** ** Rounding to three decimals *)

Lemma round_half_even_cases (y : R) :
  let n := Zfloor y in
  (y - IZR n < 1 / 2 /\ round_half_even y = n)
  \/ (y - IZR n > 1 / 2 /\ round_half_even y = (n + 1)%Z)
  \/ (y - IZR n = 1 / 2
      /\ round_half_even y = if Z.even n then n else (n + 1)%Z).
Proof.
  cbv zeta. unfold round_half_even.
  cmp;
    solve [ left; split; [lra | reflexivity]
          | right; left; split; [lra | reflexivity]
          | right; right; split; [lra | reflexivity] ].
Qed.

Lemma round_half_even_near (y : R) :
  IZR (round_half_even y) - 1 / 2 <= y <= IZR (round_half_even y) + 1 / 2.
Proof.
  pose proof (Zfloor_bound y) as B.
  destruct (round_half_even_cases y) as [[H E] | [[H E] | [H E]]];
    rewrite E.
  - lra.
  - rewrite plus_IZR. lra.
  - destruct (Z.even (Zfloor y)); [| rewrite plus_IZR]; lra.
Qed.

Lemma round_half_even_IZR (k : Z) : round_half_even (IZR k) = k.
Proof. apply round_half_even_below. lra. Qed.

Lemma round_half_even_le (x y : R) :
  x <= y -> (round_half_even x <= round_half_even y)%Z.
Proof.
  intros H. pose proof (Zfloor_le x y H) as F.
  pose proof (Zfloor_bound x) as Bx. pose proof (Zfloor_bound y) as By.
  destruct (Z.eq_dec (Zfloor x) (Zfloor y)) as [E | N].
  - destruct (round_half_even_cases x) as [[Hx Ex] | [[Hx Ex] | [Hx Ex]]];
      destruct (round_half_even_cases y) as [[Hy Ey] | [[Hy Ey] | [Hy Ey]]];
      rewrite Ex, Ey, <- ?E; rewrite <- E in Hy;
      try lia; try (exfalso; lra);
      destruct (Z.even (Zfloor x)); lia.
  - assert (L : (Zfloor x + 1 <= Zfloor y)%Z) by lia.
    assert (Ux : (round_half_even x <= Zfloor x + 1)%Z).
    { destruct (round_half_even_cases x) as [[_ Ex] | [[_ Ex] | [_ Ex]]];
        rewrite Ex; try lia. destruct (Z.even (Zfloor x)); lia. }
    assert (Ly : (Zfloor y <= round_half_even y)%Z).
    { destruct (round_half_even_cases y) as [[_ Ey] | [[_ Ey] | [_ Ey]]];
        rewrite Ey; try lia. destruct (Z.even (Zfloor y)); lia. }
    lia.
Qed.

Lemma round3_thousandth (j : Z) : round3 (IZR j / 1000) = IZR j / 1000.
Proof.
  unfold round3.
  replace (IZR j / 1000 * 1000) with (IZR j) by lra.
  rewrite round_half_even_IZR. reflexivity.
Qed.

Lemma round3_le (x y : R) : x <= y -> round3 x <= round3 y.
Proof.
  intros H. unfold round3.
  assert (L : (round_half_even (x * 1000) <= round_half_even (y * 1000))%Z)
    by (apply round_half_even_le; lra).
  apply IZR_le in L. lra.
Qed.

(** X22.  [round(x, 3)] moves a number by at most half a thousandth. *)
Theorem round3_error (x : R) : Rabs (round3 x - x) <= 0.0005.
Proof.
  unfold round3. pose proof (round_half_even_near (x * 1000)) as B.
  apply Rabs_le. lra.
Qed.

(** X23.  [round(x, 3)] leaves the multiples of a thousandth where they
    are, so rounding twice is rounding once. *)
Theorem round3_idempotent (k : Z) (x : R) :
  round3 (IZR k / 1000) = IZR k / 1000 /\ round3 (round3 x) = round3 x.
Proof.
  split; [apply round3_thousandth |].
  unfold round3 at 2. apply round3_thousandth.
Qed.

(** X24.  [round(x, 3)] is monotone. *)
Theorem round3_monotone (x y : R) : x <= y -> round3 x <= round3 y.
Proof.
  intros H. unfold round3.
  pose proof (round_half_even_le (x * 1000) (y * 1000) ltac:(lra)) as L.
  apply IZR_le in L.
  apply Rmult_le_compat_r; [lra | exact L].
Qed.

Lemma round3_monotone_witness : round3 0 <= round3 1.
Proof. apply (round3_monotone 0 1). lra. Defined.

(** ** The production of an hour *)

(** X26.  The temperature derating is 1 up to 77 degrees Fahrenheit and
    falls by one sixtieth per degree above; it is never above 1 and it is
    negative above 137 degrees. *)
Theorem temp_drop_of_fahrenheit (temp : R) :
  (temp <= 77 -> temp_drop_of temp = 1)
  /\ (77 < temp -> temp_drop_of temp = 1 - (temp - 77) / 60)
  /\ temp_drop_of temp <= 1
  /\ (temp_drop_of temp < 0 <-> 137 < temp).
Proof.
  unfold temp_drop_of. cmp; repeat split; intros; lra.
Qed.

Lemma temp_drop_of_nonneg (temp : R) : temp <= 137 -> 0 <= temp_drop_of temp.
Proof. intros H. unfold temp_drop_of. cmp; lra. Qed.

Lemma temp_drop_of_fahrenheit_witness : temp_drop_of 86 = 1 - (86 - 77) / 60.
Proof.
  apply (proj1 (proj2 (temp_drop_of_fahrenheit 86))). lra.
Defined.

Lemma round3_0 : round3 0 = 0.
Proof.
  pose proof (round3_thousandth 0) as H.
  replace (IZR 0 / 1000) with 0 in H by lra. exact H.
Qed.

(** X27.  An hour without coefficients produces nothing, and so does an
    hour under a full cloud cover. *)
Theorem calc_hourly_production_zero (temp cloud_cover : R)
    (efficiency_data : list R) :
  calc_hourly_production temp cloud_cover [] = 0
  /\ calc_hourly_production temp 100 efficiency_data = 0.
Proof.
  split.
  - unfold calc_hourly_production, accumulated_production. cbn [fold_left].
    lra.
  - unfold calc_hourly_production, accumulated_production.
    rewrite (fold_left_accumulate
               (fun e => round3 (610 * 90 * (e * temp_drop_of temp
                                             * (1 - 100 / 100)) / 1000))).
    assert (Z : fold_right Rplus 0
                  (map (fun e => round3 (610 * 90 * (e * temp_drop_of temp
                                                     * (1 - 100 / 100)) / 1000))
                       efficiency_data) = 0).
    { induction efficiency_data as [| e l IH]; cbn [map fold_right];
        [reflexivity |].
      rewrite IH.
      replace (610 * 90 * (e * temp_drop_of temp * (1 - 100 / 100)) / 1000)
        with 0 by lra.
      rewrite round3_0. lra. }
    rewrite Z. lra.
Qed.

Lemma round3_4941 : round3 49.41 = 49.41.
Proof.
  pose proof (round3_thousandth 49410) as H.
  replace (IZR 49410 / 1000) with 49.41 in H by lra. exact H.
Qed.

(** X28.  With coefficients in [0, 0.90], a cloud cover between 0 and 100
    percent and a temperature of at most 137 degrees Fahrenheit, the
    production of an hour is between 0 and 49.41 kWmin per coefficient,
    divided by 60. *)
Theorem calc_hourly_production_bounds (temp cloud_cover : R)
    (efficiency_data : list R) :
  Forall (fun e => 0 <= e <= 0.90) efficiency_data ->
  0 <= cloud_cover <= 100 -> temp <= 137 ->
  0 <= calc_hourly_production temp cloud_cover efficiency_data
    <= 49.41 * INR (length efficiency_data) / 60.
Proof.
  intros He Hc Ht.
  pose proof (temp_drop_of_nonneg temp Ht) as D0.
  assert (D3 : temp_drop_of temp <= 1) by (unfold temp_drop_of; cmp; lra).
  unfold calc_hourly_production, accumulated_production.
  rewrite (fold_left_accumulate
             (fun e => round3 (610 * 90 * (e * temp_drop_of temp
                                           * (1 - cloud_cover / 100)) / 1000))).
  set (g := fun e => round3 (610 * 90 * (e * temp_drop_of temp
                                         * (1 - cloud_cover / 100)) / 1000)).
  assert (S : 0 <= fold_right Rplus 0 (map g efficiency_data)
              <= 49.41 * INR (length efficiency_data)).
  { induction He as [| e l Hr _ IH].
    - cbn [map fold_right length INR]. lra.
    - cbn [map fold_right]. change (length (e :: l)) with (S (length l)).
      rewrite S_INR.
      assert (G : 0 <= g e <= 49.41).
      { unfold g.
        assert (A : 0 <= e * temp_drop_of temp * (1 - cloud_cover / 100)
                      <= 0.90).
        { assert (0 <= 1 - cloud_cover / 100 <= 1) by lra.
          assert (0 <= e * temp_drop_of temp <= 0.90) by nra.
          nra. }
        split.
        - apply Rle_trans with (round3 0); [rewrite round3_0; lra |].
          apply round3_le. lra.
        - apply Rle_trans with (round3 49.41); [| rewrite round3_4941; lra].
          apply round3_le. lra. }
      lra. }
  lra.
Qed.

Lemma calc_hourly_production_bounds_witness :
  0 <= calc_hourly_production 86 50 [0.5] <= 49.41 * INR (length [0.5]) / 60.
Proof.
  apply (calc_hourly_production_bounds 86 50 [0.5]).
  - constructor; [lra | constructor].
  - lra.
  - lra.
Defined.

(** * Properties of the rows of [hourly_data] *)

Example format_date_leap_day :
  format_date 2012 "02" 29 5 = "2012-02-29 05:00:00"%string.
Proof. vm_compute. reflexivity. Qed.

Lemma fetch_solar_data_lengths (lat long : R) :
  exists regular_data leap_year_data,
    fetch_solar_data lat long = Ok (regular_data, leap_year_data)
    /\ length regular_data = (365 * 17)%nat
    /\ length leap_year_data = (366 * 17)%nat.
Proof.
  destruct (fetch_solar_data_value lat long)
    as (reg & leap & E & H1 & H2 & _ & _).
  exists reg, leap. split; [assumption |]. split.
  - rewrite <- (length_map hour reg), H1, length_concat_repeat, length_seq.
    reflexivity.
  - rewrite <- (length_map hour leap), H2, length_concat_repeat, length_seq.
    reflexivity.
Qed.

Lemma leap_test_2010_2023 :
  map (fun year => (year mod 4 =? 0)%nat) (seq 2010 14)
  = [false; false; true; false; false; false; true; false; false; false;
     true; false; false; false].
Proof. vm_compute. reflexivity. Qed.

Lemma length_flat_map_select {X Y : Type} (f : nat -> X -> Y)
    (reg leap : list X) (tests : list bool) (years : list nat) :
  map (fun year => (year mod 4 =? 0)%nat) years = tests ->
  length (flat_map
            (fun year =>
               map (f year) (if (year mod 4 =? 0)%nat then leap else reg))
            years)
  = (length (filter negb tests) * length reg
     + length (filter (fun b => b) tests) * length leap)%nat.
Proof.
  revert tests. induction years as [| y years IH]; intros tests E;
    cbn [map] in E; subst tests; cbn [flat_map map filter].
  - reflexivity.
  - rewrite length_app, length_map, (IH _ eq_refl).
    destruct (y mod 4 =? 0)%nat; cbn [negb length]; lia.
Qed.

(** X29.  [hourly_data] holds the regular profile eleven times and the leap
    profile three times, that is 11 * 365 * 17 + 3 * 366 * 17 rows; on the
    years 2010 to 2023 the test [year % 4 == 0] is the leap-year rule of
    the calendar. *)
Theorem hourly_rows_count (lat long : R) :
  (forall reg leap,
     length (hourly_rows reg leap)
     = (11 * length reg + 3 * length leap)%nat)
  /\ (exists regular_data leap_year_data,
        fetch_solar_data lat long = Ok (regular_data, leap_year_data)
        /\ length (hourly_rows regular_data leap_year_data)
           = (11 * (365 * 17) + 3 * (366 * 17))%nat)
  /\ (forall year, (2010 <= year < 2024)%nat ->
                   (year mod 4 =? 0)%nat = true
                   <-> (year mod 4 = 0 /\ year mod 100 <> 0)%nat
                       \/ (year mod 400 = 0)%nat).
Proof.
  assert (C : forall reg leap,
            length (hourly_rows reg leap)
            = (11 * length reg + 3 * length leap)%nat).
  { intros reg leap. unfold hourly_rows.
    rewrite (length_flat_map_select _ reg leap _ _ leap_test_2010_2023).
    reflexivity. }
  split; [exact C |]. split.
  - destruct (fetch_solar_data_lengths lat long) as (reg & leap & E & L1 & L2).
    exists reg, leap. split; [assumption |]. rewrite C, L1, L2. reflexivity.
  - intros year H. rewrite Nat.eqb_eq.
    pose proof (Nat.div_mod_eq year 100) as E1.
    pose proof (Nat.mod_upper_bound year 100 ltac:(lia)) as B1.
    pose proof (Nat.div_mod_eq year 400) as E2.
    pose proof (Nat.mod_upper_bound year 400 ltac:(lia)) as B2.
    lia.
Qed.

Lemma hourly_rows_count_witness :
  (2012 mod 4 =? 0)%nat = true
  <-> (2012 mod 4 = 0 /\ 2012 mod 100 <> 0)%nat \/ (2012 mod 400 = 0)%nat.
Proof.
  apply (proj2 (proj2 (hourly_rows_count 0 0)) 2012%nat). lia.
Defined.

(** ** The dates of the rows *)

Lemma append_inj_length (a a' b b' : string) :
  String.length a = String.length a' ->
  (a ++ b)%string = (a' ++ b')%string -> a = a' /\ b = b'.
Proof.
  revert a'. induction a as [| c a IH]; intros [| c' a'] L E;
    cbn [String.length String.append] in *; try discriminate.
  - split; [reflexivity | assumption].
  - injection L as L. injection E as Ec E.
    destruct (IH a' L E) as [Ea Eb]. subst. split; reflexivity.
Qed.

Lemma NoDup_by_nodup {X : Type} (dec : forall x y : X, {x = y} + {x <> y})
    (l : list X) :
  nodup dec l = l -> NoDup l.
Proof. intros H. rewrite <- H. apply NoDup_nodup. Qed.

Lemma NoDup_map_inj_on {X Y : Type} (f : X -> Y) (l : list X) (a b : X) :
  NoDup (map f l) -> In a l -> In b l -> f a = f b -> a = b.
Proof.
  induction l as [| x l IH]; cbn [map]; intros N Ha Hb E; [contradiction |].
  apply NoDup_cons_iff in N. destruct N as [Nx N].
  apply in_inv in Ha. apply in_inv in Hb.
  destruct Ha as [Ha | Ha], Hb as [Hb | Hb].
  - congruence.
  - subst x. exfalso. apply Nx. rewrite E. apply in_map. assumption.
  - subst x. exfalso. apply Nx. rewrite <- E. apply in_map. assumption.
  - apply IH; assumption.
Qed.

Lemma years_str_NoDup : NoDup (map str_nat (seq 2010 14)).
Proof. apply (NoDup_by_nodup string_dec). vm_compute. reflexivity. Qed.

Lemma years_str_length (year : nat) :
  In year (seq 2010 14) -> String.length (str_nat year) = 4%nat.
Proof.
  assert (F : forallb (fun y => (String.length (str_nat y) =? 4)%nat)
                (seq 2010 14) = true) by (vm_compute; reflexivity).
  intros H. apply Nat.eqb_eq.
  exact (proj1 (forallb_forall _ _) F year H).
Qed.

Lemma two_digits_NoDup :
  NoDup (map (fun n => format_02d (Z.of_nat n)) (seq 0 100)).
Proof. apply (NoDup_by_nodup string_dec). vm_compute. reflexivity. Qed.

Lemma two_digits_length (n : nat) :
  (n < 100)%nat -> String.length (format_02d (Z.of_nat n)) = 2%nat.
Proof.
  assert (F : forallb (fun n => (String.length (format_02d (Z.of_nat n)) =? 2)%nat)
                (seq 0 100) = true) by (vm_compute; reflexivity).
  intros H. apply Nat.eqb_eq.
  apply (proj1 (forallb_forall _ _) F n). apply in_seq. lia.
Qed.

Lemma two_digits_inj (n n' : nat) :
  (n < 100)%nat -> (n' < 100)%nat ->
  format_02d (Z.of_nat n) = format_02d (Z.of_nat n') -> n = n'.
Proof.
  intros H H' E.
  apply (NoDup_map_inj_on (fun n => format_02d (Z.of_nat n)) (seq 0 100));
    [apply two_digits_NoDup | apply in_seq; lia | apply in_seq; lia | exact E].
Qed.

Lemma month_lengths_entries (february : nat) :
  (february <= 31)%nat ->
  Forall (fun m => String.length (fst m) = 2%nat /\ (snd m <= 31)%nat)
         (month_lengths february).
Proof.
  intros H. unfold month_lengths.
  repeat (constructor; [split; [reflexivity | cbn [snd]; lia] |]).
  constructor.
Qed.

Lemma key_printable (february : nat) (k : string * Z * nat) :
  (february <= 31)%nat ->
  In k (flat_map (fun date => map (fun h : nat => (date, h)) (seq 5 17))
                 (calendar (month_lengths february))) ->
  printable_key k.
Proof.
  intros Hf Hk. apply in_flat_map in Hk. destruct Hk as (date & Hd & Hk).
  apply in_map_iff in Hk. destruct Hk as (h & <- & Hh). apply in_seq in Hh.
  unfold calendar in Hd. apply in_flat_map in Hd.
  destruct Hd as (m & Hm & Hd). apply in_map_iff in Hd.
  destruct Hd as (n & <- & Hn). apply in_seq in Hn.
  pose proof (month_lengths_entries february Hf) as F.
  rewrite Forall_forall in F. destruct (F m Hm) as [L B].
  unfold printable_key. cbn [fst snd]. split; [assumption |].
  split; [exists n; split; [lia | reflexivity] | lia].
Qed.

Lemma date_of_key_inj (y y' : nat) (k k' : string * Z * nat) :
  In y (seq 2010 14) -> In y' (seq 2010 14) ->
  printable_key k -> printable_key k' ->
  date_of_key y k = date_of_key y' k' -> y = y' /\ k = k'.
Proof.
  intros Hy Hy' (Lm & (n & Hn & Ed) & Hh) (Lm' & (n' & Hn' & Ed') & Hh') E.
  destruct k as [[m d] h], k' as [[m' d'] h']. cbn [fst snd] in *.
  subst d d'. unfold date_of_key, format_date in E. cbn [fst snd] in E.
  apply append_inj_length in E;
    [| rewrite !years_str_length by assumption; reflexivity].
  destruct E as [Ey E].
  cbn [String.append] in E. injection E as E.
  apply append_inj_length in E; [| congruence].
  destruct E as [Em E].
  cbn [String.append] in E. injection E as E.
  apply append_inj_length in E;
    [| rewrite !two_digits_length by assumption; reflexivity].
  destruct E as [Ed E].
  cbn [String.append] in E. injection E as E.
  apply append_inj_length in E;
    [| rewrite !two_digits_length by assumption; reflexivity].
  destruct E as [Eh _].
  apply (NoDup_map_inj_on str_nat (seq 2010 14)) in Ey;
    [| apply years_str_NoDup | assumption | assumption].
  apply two_digits_inj in Ed; [| assumption | assumption].
  apply two_digits_inj in Eh; [| assumption | assumption].
  subst. split; reflexivity.
Qed.

Lemma NoDup_map_of_inj_on {X Y : Type} (g : X -> Y) (l : list X) :
  NoDup l ->
  (forall a b, In a l -> In b l -> g a = g b -> a = b) ->
  NoDup (map g l).
Proof.
  induction 1 as [| x l Hx _ IH]; intros Hg; cbn [map]; constructor.
  - intros Hin. apply in_map_iff in Hin. destruct Hin as (x' & E & Hx').
    assert (x' = x)
      by (apply Hg; [right; assumption | left; reflexivity | assumption]).
    subst x'. contradiction.
  - apply IH. intros a b Ha Hb. apply Hg; right; assumption.
Qed.

Lemma flat_map_pairs {T K Y : Type} (f : T -> K -> Y) (items : T -> list K)
    (l : list T) :
  flat_map (fun t => map (f t) (items t)) l
  = map (fun p => f (fst p) (snd p))
        (flat_map (fun t => map (fun k => (t, k)) (items t)) l).
Proof.
  induction l as [| t l IH]; cbn [flat_map map]; [reflexivity |].
  rewrite map_app, map_map, IH. reflexivity.
Qed.

Lemma NoDup_flat_map_map {T K Y : Type} (f : T -> K -> Y)
    (items : T -> list K) (l : list T) :
  NoDup l ->
  (forall t, In t l -> NoDup (items t)) ->
  (forall t t' k k', In t l -> In t' l -> In k (items t) -> In k' (items t') ->
                     f t k = f t' k' -> t = t' /\ k = k') ->
  NoDup (flat_map (fun t => map (f t) (items t)) l).
Proof.
  intros Nl Ni Hf. rewrite flat_map_pairs.
  apply NoDup_map_of_inj_on.
  - apply (NoDup_flat_map_tagged (fun t : T => t) (fun k : K => k) items).
    + intros y y' E. assumption.
    + rewrite map_id. assumption.
    + assumption.
  - intros [t k] [t' k'] Hp Hp' E. cbn [fst snd] in E.
    apply in_flat_map in Hp. destruct Hp as (t0 & Ht & Hk).
    apply in_map_iff in Hk. destruct Hk as (k0 & Ek & Hk).
    injection Ek as -> ->.
    apply in_flat_map in Hp'. destruct Hp' as (t0' & Ht' & Hk').
    apply in_map_iff in Hk'. destruct Hk' as (k0' & Ek' & Hk').
    injection Ek' as -> ->.
    destruct (Hf t t' k k' Ht Ht' Hk Hk' E) as [-> ->]. reflexivity.
Qed.

Lemma map_fst_flat_map {T X Y Z : Type} (g : T -> X -> Y * Z)
    (items : T -> list X) (l : list T) :
  map fst (flat_map (fun t => map (g t) (items t)) l)
  = flat_map (fun t => map (fun x => fst (g t x)) (items t)) l.
Proof.
  induction l as [| t l IH]; cbn [flat_map map]; [reflexivity |].
  rewrite map_app, map_map, IH. reflexivity.
Qed.

Lemma hourly_rows_dates (reg leap : list HourRecord) :
  map fst (hourly_rows reg leap)
  = flat_map
      (fun year =>
         map (date_of_key year)
             (map record_key (if (year mod 4 =? 0)%nat then leap else reg)))
      (seq 2010 14).
Proof.
  unfold hourly_rows.
  rewrite (map_fst_flat_map
             (fun year data =>
                (format_date year (month data) (day data) (hour data),
                 efficiency_data data))
             (fun year => if (year mod 4 =? 0)%nat then leap else reg)).
  apply flat_map_ext. intros year. rewrite map_map. reflexivity.
Qed.

(** X30.  The dates of the rows of [hourly_data] are pairwise distinct:
    no hour of the fourteen years is written twice. *)
Theorem hourly_dates_distinct (lat long : R) :
  exists regular_data leap_year_data,
    fetch_solar_data lat long = Ok (regular_data, leap_year_data)
    /\ NoDup (map fst (hourly_rows regular_data leap_year_data)).
Proof.
  destruct (fetch_solar_data_keys lat long)
    as (reg & leap & E & K1 & K2 & N1 & N2).
  exists reg, leap. split; [assumption |].
  rewrite hourly_rows_dates.
  apply (NoDup_flat_map_map date_of_key
           (fun year =>
              map record_key (if (year mod 4 =? 0)%nat then leap else reg))).
  - apply seq_NoDup.
  - intros year _. destruct (year mod 4 =? 0)%nat; assumption.
  - assert (P : forall year k,
              In k (map record_key
                      (if (year mod 4 =? 0)%nat then leap else reg)) ->
              printable_key k).
    { intros year k Hk. destruct (year mod 4 =? 0)%nat.
      - rewrite K2 in Hk. apply (key_printable 29); [lia | assumption].
      - rewrite K1 in Hk. apply (key_printable 28); [lia | assumption]. }
    intros y y' k k' Hy Hy' Hk Hk' Ed.
    apply (date_of_key_inj y y' k k' Hy Hy' (P y k Hk) (P y' k' Hk') Ed).
Qed.
